(** * School directory: query composition, result mapping and comparison

    A shallow embedding of the view logic of the school directory
    application: the pages [SearchPage], [SchoolDetailsPage], [ComparePage]
    and [HomePage].  Each page issues a declarative query to the record
    store, maps the raw records to its own [School] shape and renders them.

    JavaScript values are modelled as the code uses them: the functions
    embedded here only compare, floor and maximise numbers, so a finite
    number is the rational it denotes; strings are sequences of UTF-16 code
    units; objects used as dictionaries are finite maps. *)

From Stdlib Require Import QArith Qround ZArith NArith List String Ascii Bool Lia Lqa.
From stdpp Require Import gmap strings list fin_maps.

Local Open Scope list_scope.

(** ** JavaScript values *)

Module JS.

(** A string is its sequence of UTF-16 code units. *)
Definition jsstring := list N.

(** An ASCII literal as a JavaScript string. *)
Definition js (s : string) : jsstring :=
  List.map N_of_ascii (list_ascii_of_string s).

(** WhiteSpace and LineTerminator code points, the ones [trim] strips. *)
Definition is_white_space (c : N) : bool :=
  ((9 <=? c) && (c <=? 13) || (c =? 32) || (c =? 160) || (c =? 5760)
   || (8192 <=? c) && (c <=? 8202) || (c =? 8232) || (c =? 8233)
   || (c =? 8239) || (c =? 8287) || (c =? 12288) || (c =? 65279))%N.

Fixpoint trimStart (s : jsstring) : jsstring :=
  match s with
  | c :: s' => if is_white_space c then trimStart s' else s
  | [] => []
  end.

Definition trimEnd (s : jsstring) : jsstring := rev (trimStart (rev s)).

(** [String.prototype.trim] *)
Definition trim (s : jsstring) : jsstring := trimEnd (trimStart s).

(** A number: NaN, an infinity, or a finite value (the rational it
    denotes; both zeros are the rational 0). *)
Inductive number : Type :=
| NaN
| NegInfinity
| Fin (q : Q)
| Infinity.

(** A field that may hold [undefined] or [null] instead of a value. *)
Inductive nullable (A : Type) : Type :=
| undefined
| null
| val (a : A).
Arguments undefined {A}.
Arguments null {A}.
Arguments val {A} a.

Definition Qlt_bool (x y : Q) : bool := negb (Qle_bool y x).

(** [a < b] on numbers: false as soon as one side is NaN. *)
Definition lt (a b : number) : bool :=
  match a, b with
  | NaN, _ | _, NaN => false
  | _, NegInfinity => false
  | NegInfinity, _ => true
  | Infinity, _ => false
  | Fin _, Infinity => true
  | Fin x, Fin y => Qlt_bool x y
  end.

(** [a > b] *)
Definition gt (a b : number) : bool := lt b a.

(** [a >= b]: false with a NaN, otherwise the negation of [a < b]. *)
Definition ge (a b : number) : bool :=
  match a, b with
  | NaN, _ | _, NaN => false
  | _, _ => negb (lt a b)
  end.

(** [a === b] on numbers. *)
Definition strict_eq (a b : number) : bool :=
  match a, b with
  | NegInfinity, NegInfinity | Infinity, Infinity => true
  | Fin x, Fin y => Qeq_bool x y
  | _, _ => false
  end.

(** [v === n] where [v] may be [undefined] or [null]: different types
    are never strictly equal. *)
Definition strict_eq_val (v : nullable number) (n : number) : bool :=
  match v with
  | val m => strict_eq m n
  | _ => false
  end.

(** ToNumber on a possibly absent number. *)
Definition ToNumber (v : nullable number) : number :=
  match v with
  | undefined => NaN
  | null => Fin 0
  | val n => n
  end.

(** ToBoolean: NaN and zero are falsy, like [undefined] and [null]. *)
Definition truthy_number (n : number) : bool :=
  match n with
  | NaN => false
  | Fin q => negb (Qeq_bool q 0)
  | _ => true
  end.

Definition truthy (v : nullable number) : bool :=
  match v with
  | val n => truthy_number n
  | _ => false
  end.

(** The empty string is the only falsy string. *)
Definition truthy_string (s : jsstring) : bool :=
  match s with
  | [] => false
  | _ => true
  end.

(** [v || 0] *)
Definition or_zero (v : nullable number) : number :=
  if truthy v then ToNumber v else Fin 0.

(** [Math.floor] *)
Definition floor (n : number) : number :=
  match n with
  | Fin q => Fin (inject_Z (Qfloor q))
  | _ => n
  end.

(** One step of [Math.max]: NaN is absorbing, otherwise keep the larger. *)
Definition max2 (highest n : number) : number :=
  match highest, n with
  | NaN, _ | _, NaN => NaN
  | _, _ => if lt highest n then n else highest
  end.

(** [Math.max(...l)]: starts from -Infinity. *)
Definition max (l : list number) : number := fold_left max2 l NegInfinity.

(** [Math.min(a, b)] *)
Definition min2 (a b : number) : number :=
  match a, b with
  | NaN, _ | _, NaN => NaN
  | _, _ => if lt b a then b else a
  end.

(** The array index [i] as a number. *)
Definition of_nat (i : nat) : number := Fin (inject_Z (Z.of_nat i)).

End JS.

(** ** The record store interface *)

Module Store.
Import JS.

(** A raw [schools] record, with the store's snake_case field names.
    The rating columns and the review count are nullable. *)
Record school_record : Type := {
  id : jsstring;
  name : jsstring;
  address : jsstring;
  city : jsstring;
  state : jsstring;
  zip_code : nullable jsstring;
  phone : nullable jsstring;
  website : nullable jsstring;
  school_type : jsstring;
  grade_levels : jsstring;
  description : nullable jsstring;
  image_url : nullable jsstring;
  overall_rating : nullable number;
  academics_rating : nullable number;
  facilities_rating : nullable number;
  teachers_rating : nullable number;
  safety_rating : nullable number;
  extracurriculars_rating : nullable number;
  total_reviews : nullable number
}.

(** A raw [reviews] record. *)
Record review_record : Type := {
  review_id : jsstring;
  review_overall_rating : nullable number;
  review_academics_rating : nullable number;
  review_facilities_rating : nullable number;
  review_teachers_rating : nullable number;
  review_safety_rating : nullable number;
  review_extracurriculars_rating : nullable number;
  title : jsstring;
  content : jsstring;
  pros : nullable jsstring;
  cons : nullable jsstring;
  would_recommend : nullable number;
  graduation_year : nullable number;
  relationship : jsstring;
  created_at : jsstring;
  user_id : jsstring
}.

(** Operators of a field condition: [{contains: s}], [{in: l}],
    [{gte: n}]. *)
Inductive condition : Type :=
| contains (s : jsstring)
| in_ (l : list jsstring)
| gte (n : number).

(** The value under a key of a [where] object: the alternatives of an
    [OR], each an object with one field condition, or a condition on the
    field the key names. *)
Inductive where_value : Type :=
| alternatives (alts : list (string * condition))
| on_field (c : condition).

Inductive direction : Type := asc | desc.

(** The argument of [list]: [{where, orderBy, limit}]. *)
Record list_options : Type := {
  where_ : option (gmap string where_value);
  orderBy : gmap string direction;
  limit : nat
}.

(** How an awaited [list] call settles. *)
Inductive settled (A : Type) : Type :=
| fulfilled (results : list A)
| rejected (error : jsstring).
Arguments fulfilled {A} results.
Arguments rejected {A} error.

End Store.

(** One call of [console.error(label, error)]. *)
Record console_error : Type := { label : string; thrown : JS.jsstring }.

(** The five star glyphs of a rating. *)
Inductive glyph : Type := full | half | empty.

(** The class string each glyph is drawn with. *)
Definition glyph_class (g : glyph) : string :=
  match g with
  | full => "text-accent fill-accent"
  | half => "text-accent fill-accent/50"
  | empty => "text-muted-foreground"
  end.

(** The body of every [renderStars]: [Array.from({length: 5}, (_, i) => ...)]
    with the class chosen by [i < Math.floor(r)], then [i < r]. *)
Definition star (r : JS.number) (i : nat) : glyph :=
  if JS.lt (JS.of_nat i) (JS.floor r) then full
  else if JS.lt (JS.of_nat i) r then half
  else empty.

Definition stars (r : JS.number) : list glyph := List.map (star r) (seq 0 5).

(** ** Navigation requests *)

Module Nav.
Import JS.

(** The [Page] type of the root component. *)
Inductive Page : Type := home | search | school | compare.

(** One call [onNavigate(page, schoolId, query)]; an argument left out, or
    passed as [undefined], is [None]. *)
Record call : Type := {
  page : Page;
  schoolId : option jsstring;
  query : option jsstring
}.

End Nav.

(** ** The Search view *)

Module SearchPage.
Import JS.

Record School : Type := {
  id : jsstring;
  name : jsstring;
  address : jsstring;
  city : jsstring;
  state : jsstring;
  schoolType : jsstring;
  gradeLevels : jsstring;
  overallRating : number;
  totalReviews : number;
  imageUrl : nullable jsstring
}.

(** The [Filters] interface; its [schoolType] field is [schoolType_] here,
    next to the [schoolType] of [School]. *)
Record Filters : Type := {
  schoolType_ : list jsstring;
  gradeLevel : jsstring;
  minRating : number;
  sortBy : jsstring
}.

(** The component's state, [useState] by [useState]. *)
Record State : Type := {
  searchQuery : jsstring;
  schools : list School;
  loading : bool;
  showFilters : bool;
  filters : Filters
}.

(** The filters a fresh page starts with, also what [clearFilters] sets. *)
Definition noFilters : Filters :=
  {| schoolType_ := []; gradeLevel := []; minRating := Fin 0;
     sortBy := js "rating" |}.

Definition initial (query : jsstring) : State :=
  {| searchQuery := query; schools := []; loading := true;
     showFilters := false; filters := noFilters |}.

(** [whereClause] of [searchSchools]: an empty object that the four [if]
    statements fill in, in order. *)
Definition whereClause (searchQuery : jsstring) (filters : Filters)
  : gmap string Store.where_value :=
  let w : gmap string Store.where_value := ∅ in
  let w :=
    if truthy_string (trim searchQuery)
    then <["OR" := Store.alternatives
                     [("name", Store.contains searchQuery);
                      ("city", Store.contains searchQuery);
                      ("address", Store.contains searchQuery)]]> w
    else w in
  let w :=
    if (0 <? length (schoolType_ filters))%nat
    then <["school_type" := Store.on_field (Store.in_ (schoolType_ filters))]> w
    else w in
  let w :=
    if truthy_string (gradeLevel filters)
    then <["grade_levels" := Store.on_field (Store.contains (gradeLevel filters))]> w
    else w in
  let w :=
    if gt (minRating filters) (Fin 0)
    then <["overall_rating" := Store.on_field (Store.gte (minRating filters))]> w
    else w in
  w.

(** The [switch (filters.sortBy)] of [searchSchools]. *)
Definition orderBy (sortBy : jsstring) : gmap string Store.direction :=
  if bool_decide (sortBy = js "rating") then {["overall_rating" := Store.desc]}
  else if bool_decide (sortBy = js "reviews") then {["total_reviews" := Store.desc]}
  else if bool_decide (sortBy = js "name") then {["name" := Store.asc]}
  else {["overall_rating" := Store.desc]}.

(** The argument [searchSchools] passes to [blink.db.schools.list]. *)
Definition listOptions (searchQuery : jsstring) (filters : Filters)
  : Store.list_options :=
  let w := whereClause searchQuery filters in
  {| Store.where_ := if (0 <? size w)%nat then Some w else None;
     Store.orderBy := orderBy (sortBy filters);
     Store.limit := 50 |}.

(** The mapping of one raw record, inside [results.map]. *)
Definition toSchool (school : Store.school_record) : School :=
  {| id := Store.id school;
     name := Store.name school;
     address := Store.address school;
     city := Store.city school;
     state := Store.state school;
     schoolType := Store.school_type school;
     gradeLevels := Store.grade_levels school;
     overallRating := or_zero (Store.overall_rating school);
     totalReviews := or_zero (Store.total_reviews school);
     imageUrl := Store.image_url school |}.

(** [searchSchools] up to its [await]: the loading flag is raised and the
    query is sent. *)
Definition searchSchools_request (st : State) : State * Store.list_options :=
  ({| searchQuery := searchQuery st; schools := schools st; loading := true;
      showFilters := showFilters st; filters := filters st |},
   listOptions (searchQuery st) (filters st)).

(** [searchSchools] from its [await] on: [try] stores the mapped results,
    [catch] only writes to the console, [finally] lowers the loading flag. *)
Definition searchSchools_settle
    (outcome : Store.settled Store.school_record) (st : State)
  : State * list console_error :=
  match outcome with
  | Store.fulfilled results =>
      ({| searchQuery := searchQuery st;
          schools := List.map toSchool results;
          loading := false;
          showFilters := showFilters st; filters := filters st |}, [])
  | Store.rejected error =>
      ({| searchQuery := searchQuery st; schools := schools st;
          loading := false;
          showFilters := showFilters st; filters := filters st |},
       [{| label := "Error searching schools:"; thrown := error |}])
  end.

(** [renderStars]: the rating is first replaced by [rating || 0]. *)
Definition renderStars (rating : number) : list glyph :=
  let safeRating := if truthy_number rating then rating else Fin 0 in
  stars safeRating.

(** What the results area shows: the placeholder while loading, the
    "No schools found" panel for an empty list, otherwise one card per
    school with its stars. *)
Inductive results_area : Type :=
| Searching
| NoSchoolsFound
| Cards (cards : list (School * list glyph)).

Definition render_results (st : State) : results_area :=
  if loading st then Searching
  else if (length (schools st) =? 0)%nat then NoSchoolsFound
  else Cards (List.map (fun school => (school, renderStars (overallRating school)))
                       (schools st)).

(** [filters.schoolType.includes(type)], the [checked] of a type's box. *)
Definition includes (type : jsstring) (selected : list jsstring) : bool :=
  existsb (fun t => bool_decide (t = type)) selected.

(** [handleSchoolTypeChange]: a checked type goes to the end of the list,
    an unchecked one is filtered out. *)
Definition handleSchoolTypeChange (type : jsstring) (checked : bool) (st : State)
  : State :=
  let prev := filters st in
  {| searchQuery := searchQuery st; schools := schools st; loading := loading st;
     showFilters := showFilters st;
     filters :=
       {| schoolType_ :=
            if checked then schoolType_ prev ++ [type]
            else List.filter (fun t => negb (bool_decide (t = type)))
                             (schoolType_ prev);
          gradeLevel := gradeLevel prev;
          minRating := minRating prev;
          sortBy := sortBy prev |} |}.

(** [clearFilters] *)
Definition clearFilters (st : State) : State :=
  {| searchQuery := searchQuery st; schools := schools st; loading := loading st;
     showFilters := showFilters st; filters := noFilters |}.

(** [activeFiltersCount], the number on the badge of the Filters button. *)
Definition activeFiltersCount (filters : Filters) : nat :=
  length (schoolType_ filters)
  + (if truthy_string (gradeLevel filters) then 1 else 0)
  + (if gt (minRating filters) (Fin 0) then 1 else 0).

(** The click on a school card: [onNavigate('school', school.id)]. *)
Definition card_click (school : School) : Nav.call :=
  {| Nav.page := Nav.school; Nav.schoolId := Some (id school);
     Nav.query := None |}.

End SearchPage.

(** ** The School details view *)

Module SchoolDetailsPage.
Import JS.

Record School : Type := {
  id : jsstring;
  name : jsstring;
  address : jsstring;
  city : jsstring;
  state : jsstring;
  zipCode : nullable jsstring;
  phone : nullable jsstring;
  website : nullable jsstring;
  schoolType : jsstring;
  gradeLevels : jsstring;
  description : nullable jsstring;
  imageUrl : nullable jsstring;
  overallRating : number;
  academicsRating : number;
  facilitiesRating : number;
  teachersRating : number;
  safetyRating : number;
  extracurricularsRating : number;
  totalReviews : number
}.

Record Review : Type := {
  review_id : jsstring;
  review_overallRating : number;
  review_academicsRating : number;
  review_facilitiesRating : number;
  review_teachersRating : number;
  review_safetyRating : number;
  review_extracurricularsRating : number;
  title : jsstring;
  content : jsstring;
  pros : nullable jsstring;
  cons : nullable jsstring;
  wouldRecommend : bool;
  graduationYear : nullable number;
  relationship : jsstring;
  createdAt : jsstring;
  userId : jsstring
}.

(** The object [loadSchoolDetails] builds from [schools[0]]. *)
Definition toSchool (schoolData : Store.school_record) : School :=
  {| id := Store.id schoolData;
     name := Store.name schoolData;
     address := Store.address schoolData;
     city := Store.city schoolData;
     state := Store.state schoolData;
     zipCode := Store.zip_code schoolData;
     phone := Store.phone schoolData;
     website := Store.website schoolData;
     schoolType := Store.school_type schoolData;
     gradeLevels := Store.grade_levels schoolData;
     description := Store.description schoolData;
     imageUrl := Store.image_url schoolData;
     overallRating := or_zero (Store.overall_rating schoolData);
     academicsRating := or_zero (Store.academics_rating schoolData);
     facilitiesRating := or_zero (Store.facilities_rating schoolData);
     teachersRating := or_zero (Store.teachers_rating schoolData);
     safetyRating := or_zero (Store.safety_rating schoolData);
     extracurricularsRating := or_zero (Store.extracurriculars_rating schoolData);
     totalReviews := or_zero (Store.total_reviews schoolData) |}.

(** The mapping of one raw review, inside [reviewsData.map];
    [Number(review.would_recommend) > 0] decides the recommendation. *)
Definition toReview (review : Store.review_record) : Review :=
  {| review_id := Store.review_id review;
     review_overallRating := or_zero (Store.review_overall_rating review);
     review_academicsRating := or_zero (Store.review_academics_rating review);
     review_facilitiesRating := or_zero (Store.review_facilities_rating review);
     review_teachersRating := or_zero (Store.review_teachers_rating review);
     review_safetyRating := or_zero (Store.review_safety_rating review);
     review_extracurricularsRating :=
       or_zero (Store.review_extracurriculars_rating review);
     title := Store.title review;
     content := Store.content review;
     pros := Store.pros review;
     cons := Store.cons review;
     wouldRecommend := gt (ToNumber (Store.would_recommend review)) (Fin 0);
     graduationYear := Store.graduation_year review;
     relationship := Store.relationship review;
     createdAt := Store.created_at review;
     userId := Store.user_id review |}.

(** [renderStars], with the same [rating || 0] guard as the Search view. *)
Definition renderStars (rating : number) : list glyph :=
  let safeRating := if truthy_number rating then rating else Fin 0 in
  stars safeRating.

(** The component's state, [useState] by [useState]. *)
Record State : Type := {
  school : option School;
  reviews : list Review;
  loading : bool;
  reviewsLoading : bool
}.

Definition initial : State :=
  {| school := None; reviews := []; loading := true; reviewsLoading := true |}.

(** [loadSchoolDetails] from its [await] on: the first record, if there is
    one, becomes the school; [catch] only writes to the console; [finally]
    lowers the loading flag. *)
Definition loadSchoolDetails_settle
    (outcome : Store.settled Store.school_record) (st : State)
  : State * list console_error :=
  match outcome with
  | Store.fulfilled schools =>
      ({| school := match schools with
                    | schoolData :: _ => Some (toSchool schoolData)
                    | [] => school st
                    end;
          reviews := reviews st; loading := false;
          reviewsLoading := reviewsLoading st |}, [])
  | Store.rejected error =>
      ({| school := school st; reviews := reviews st; loading := false;
          reviewsLoading := reviewsLoading st |},
       [{| label := "Error loading school details:"; thrown := error |}])
  end.

(** [loadReviews] from its [await] on. *)
Definition loadReviews_settle
    (outcome : Store.settled Store.review_record) (st : State)
  : State * list console_error :=
  match outcome with
  | Store.fulfilled reviewsData =>
      ({| school := school st; reviews := List.map toReview reviewsData;
          loading := loading st; reviewsLoading := false |}, [])
  | Store.rejected error =>
      ({| school := school st; reviews := reviews st;
          loading := loading st; reviewsLoading := false |},
       [{| label := "Error loading reviews:"; thrown := error |}])
  end.

(** What the page shows: the placeholder while the school is loading, the
    "School Not Found" panel when no school is held, otherwise the school
    with its reviews area. *)
Inductive reviews_area : Type :=
| ReviewsLoading
| NoReviewsYet
| ReviewCards (cards : list (Review * list glyph)).

Inductive page_view : Type :=
| Skeleton
| SchoolNotFound
| Details (shown : School) (overall_stars : list glyph) (area : reviews_area).

Definition render (st : State) : page_view :=
  if loading st then Skeleton
  else match school st with
       | None => SchoolNotFound
       | Some shown =>
           Details shown (renderStars (overallRating shown))
             (if reviewsLoading st then ReviewsLoading
              else if (length (reviews st) =? 0)%nat then NoReviewsYet
              else ReviewCards
                     (List.map (fun review =>
                                  (review, renderStars (review_overallRating review)))
                               (reviews st)))
       end.

End SchoolDetailsPage.

(** ** The Home view *)

Module HomePage.
Import JS.

(** The interface declares the two numeric fields as numbers; the mapping
    copies the raw columns, so at run time they hold whatever the record
    holds. *)
Record School : Type := {
  id : jsstring;
  name : jsstring;
  address : jsstring;
  city : jsstring;
  state : jsstring;
  schoolType : jsstring;
  gradeLevels : jsstring;
  overallRating : nullable number;
  totalReviews : nullable number;
  imageUrl : nullable jsstring
}.

(** The mapping of one raw record in [loadFeaturedSchools]. *)
Definition toSchool (school : Store.school_record) : School :=
  {| id := Store.id school;
     name := Store.name school;
     address := Store.address school;
     city := Store.city school;
     state := Store.state school;
     schoolType := Store.school_type school;
     gradeLevels := Store.grade_levels school;
     overallRating := Store.overall_rating school;
     totalReviews := Store.total_reviews school;
     imageUrl := Store.image_url school |}.

(** [renderStars]: no guard, [Math.floor] and [<] convert the argument. *)
Definition renderStars (rating : nullable number) : list glyph :=
  stars (ToNumber rating).

(** The component's state, [useState] by [useState]. *)
Record State : Type := {
  searchQuery : jsstring;
  featuredSchools : list School;
  loading : bool
}.

Definition initial : State :=
  {| searchQuery := []; featuredSchools := []; loading := true |}.


(** [handleSearch]: a blank text does nothing, any other navigates to the
    Search view with the trimmed text. *)
Definition handleSearch (st : State) : option Nav.call :=
  if truthy_string (trim (searchQuery st))
  then Some {| Nav.page := Nav.search; Nav.schoolId := None;
               Nav.query := Some (trim (searchQuery st)) |}
  else None.

(** The click on a featured school: [onNavigate('school', school.id)]. *)
Definition card_click (school : School) : Nav.call :=
  {| Nav.page := Nav.school; Nav.schoolId := Some (id school);
     Nav.query := None |}.

End HomePage.

(** ** The Compare view *)

Module ComparePage.
Import JS.

(** As on the Home view, the mapping copies the rating columns as they
    are, so the fields declared as numbers may hold [null] at run time. *)
Record School : Type := {
  id : jsstring;
  name : jsstring;
  address : jsstring;
  city : jsstring;
  state : jsstring;
  phone : nullable jsstring;
  website : nullable jsstring;
  schoolType : jsstring;
  gradeLevels : jsstring;
  overallRating : nullable number;
  academicsRating : nullable number;
  facilitiesRating : nullable number;
  teachersRating : nullable number;
  safetyRating : nullable number;
  extracurricularsRating : nullable number;
  totalReviews : nullable number
}.

(** The component's state, [useState] by [useState]. *)
Record State : Type := {
  selectedSchools : list School;
  searchQuery : jsstring;
  searchResults : list School;
  loading : bool;
  showSearch : bool
}.

Definition initial : State :=
  {| selectedSchools := []; searchQuery := []; searchResults := [];
     loading := false; showSearch := false |}.

(** The argument [searchSchools] passes to [blink.db.schools.list]. *)
Definition listOptions (searchQuery : jsstring) : Store.list_options :=
  {| Store.where_ :=
       Some {["OR" := Store.alternatives
                        [("name", Store.contains searchQuery);
                         ("city", Store.contains searchQuery);
                         ("address", Store.contains searchQuery)]]};
     Store.orderBy := {["overall_rating" := Store.desc]};
     Store.limit := 10 |}.

(** The mapping of one raw record, inside [results.map]. *)
Definition toSchool (school : Store.school_record) : School :=
  {| id := Store.id school;
     name := Store.name school;
     address := Store.address school;
     city := Store.city school;
     state := Store.state school;
     phone := Store.phone school;
     website := Store.website school;
     schoolType := Store.school_type school;
     gradeLevels := Store.grade_levels school;
     overallRating := Store.overall_rating school;
     academicsRating := Store.academics_rating school;
     facilitiesRating := Store.facilities_rating school;
     teachersRating := Store.teachers_rating school;
     safetyRating := Store.safety_rating school;
     extracurricularsRating := Store.extracurriculars_rating school;
     totalReviews := Store.total_reviews school |}.

(** [list.some(s => s.id === school_id)] *)
Definition some_id (school_id : jsstring) (l : list School) : bool :=
  existsb (fun s => bool_decide (id s = school_id)) l.

(** [list.filter(s => s.id !== school_id)] *)
Definition without_id (school_id : jsstring) (l : list School) : list School :=
  List.filter (fun s => negb (bool_decide (id s = school_id))) l.

(** What a [searchSchools] function object sees: the [searchQuery] and the
    [selectedSchools] of the render that created it. *)
Record Closure : Type := {
  seen_query : jsstring;
  seen_selected : list School
}.

Definition closure_of (st : State) : Closure :=
  {| seen_query := searchQuery st; seen_selected := selectedSchools st |}.

(** [searchSchools] up to its [await].  A blank query empties the result
    list and returns; otherwise the loading flag is raised and the query
    is sent. *)
Definition searchSchools_request (c : Closure) (st : State)
  : State * option Store.list_options :=
  if negb (truthy_string (trim (seen_query c))) then
    ({| selectedSchools := selectedSchools st; searchQuery := searchQuery st;
        searchResults := []; loading := loading st;
        showSearch := showSearch st |}, None)
  else
    ({| selectedSchools := selectedSchools st; searchQuery := searchQuery st;
        searchResults := searchResults st; loading := true;
        showSearch := showSearch st |}, Some (listOptions (seen_query c))).

(** [searchSchools] from its [await] on: [try] maps the records and keeps
    those whose id is not among the [selectedSchools] the function sees,
    [catch] only writes to the console, [finally] lowers the loading
    flag. *)
Definition searchSchools_settle (c : Closure)
    (outcome : Store.settled Store.school_record) (st : State)
  : State * list console_error :=
  match outcome with
  | Store.fulfilled results =>
      let schools := List.map toSchool results in
      ({| selectedSchools := selectedSchools st; searchQuery := searchQuery st;
          searchResults :=
            List.filter (fun school => negb (some_id (id school) (seen_selected c)))
                        schools;
          loading := false; showSearch := showSearch st |}, [])
  | Store.rejected error =>
      ({| selectedSchools := selectedSchools st; searchQuery := searchQuery st;
          searchResults := searchResults st;
          loading := false; showSearch := showSearch st |},
       [{| label := "Error searching schools:"; thrown := error |}])
  end.

(** [addSchool] *)
Definition addSchool (school : School) (st : State) : State :=
  if (length (selectedSchools st) <? 4)%nat
     && negb (some_id (id school) (selectedSchools st))
  then {| selectedSchools := selectedSchools st ++ [school];
          searchQuery := [];
          searchResults := without_id (id school) (searchResults st);
          loading := loading st;
          showSearch := false |}
  else st.

(** [removeSchool] *)
Definition removeSchool (schoolId : jsstring) (st : State) : State :=
  {| selectedSchools := without_id schoolId (selectedSchools st);
     searchQuery := searchQuery st;
     searchResults := searchResults st;
     loading := loading st;
     showSearch := showSearch st |}.

(** [renderStars]: no guard, [Math.floor] and [<] convert the argument. *)
Definition renderStars (rating : nullable number) : list glyph :=
  stars (ToNumber rating).

(** [getRatingColor] *)
Definition getRatingColor (rating : nullable number) : string :=
  if ge (ToNumber rating) (Fin (9 # 2)) then "text-green-600"
  else if ge (ToNumber rating) (Fin 4) then "text-green-500"
  else if ge (ToNumber rating) (Fin (7 # 2)) then "text-yellow-500"
  else if ge (ToNumber rating) (Fin 3) then "text-orange-500"
  else "text-red-500".

(** The keys [getHighestRating] is called with. *)
Inductive category : Type :=
| overall | academics | teachers | facilities | safety | extracurriculars.

(** [school[category]] *)
Definition rating_of (c : category) (school : School) : nullable number :=
  match c with
  | overall => overallRating school
  | academics => academicsRating school
  | teachers => teachersRating school
  | facilities => facilitiesRating school
  | safety => safetyRating school
  | extracurriculars => extracurricularsRating school
  end.

(** [getHighestRating] *)
Definition getHighestRating (c : category) (selectedSchools : list School)
  : number :=
  if (length selectedSchools =? 0)%nat then Fin 0
  else max (List.map (fun school => ToNumber (rating_of c school)) selectedSchools).

(** The colour class of a rating cell of the comparison table:
    [school.r === getHighestRating('r') ? 'text-green-600'
                                        : getRatingColor(school.r)]. *)
Definition cell_class (c : category) (selectedSchools : list School)
    (school : School) : string :=
  if strict_eq_val (rating_of c school) (getHighestRating c selectedSchools)
  then "text-green-600"
  else getRatingColor (rating_of c school).

(** The receiver of [school.overallRating.toFixed(1)]: reading a property
    of [undefined] or [null] throws a TypeError ([None]); the digits
    printed for a number are not modelled. *)
Definition toFixed_receiver (rating : nullable number) : option number :=
  match rating with
  | val n => Some n
  | _ => None
  end.

(** The list under the search box: shown while fewer than four schools
    are selected, the box is open, the query is non-empty and no request
    is loading. *)
Definition visible_results (st : State) : list School :=
  if (length (selectedSchools st) <? 4)%nat && showSearch st
     && truthy_string (searchQuery st) && negb (loading st)
  then searchResults st
  else [].




End ComparePage.

(** ** The Compare view over time

    The handlers of the Compare view run one at a time, but a request sent
    by [searchSchools] settles later, and the function that sent it still
    sees the state of the render that created it.  A page is the current
    state together with the pending debounce timer and the requests in
    flight, each with the closure that will handle its settlement. *)

Module CompareSession.
Import JS ComparePage.

Record Page : Type := {
  view : State;
  timer : option Closure;
  inflight : list Closure;
  console : list console_error
}.

(** After the first render the effect has armed the timer. *)
Definition mounted : Page :=
  {| view := initial; timer := Some (closure_of initial);
     inflight := []; console := [] |}.

(** A handler has replaced the state: the component renders again, and
    the effect, whose dependency list is [[searchQuery]], clears the
    timer and arms a new one only when the query changed. *)
Definition rerender (next : State) (p : Page) : Page :=
  {| view := next;
     timer := if bool_decide (searchQuery next = searchQuery (view p))
              then timer p else Some (closure_of next);
     inflight := inflight p;
     console := console p |}.

Inductive event : Type :=
| change (value : jsstring)     (* typing in the search box *)
| focus                         (* focusing the search box *)
| click_outside                 (* the backdrop behind the open box *)
| click_result (i : nat)        (* the i-th row of the visible results *)
| click_remove (i : nat)        (* the X of the i-th selected school *)
| timeout                       (* the 300ms timer elapses *)
| settle (i : nat) (outcome : Store.settled Store.school_record).
                                (* the i-th request in flight settles *)

Definition step (e : event) (p : Page) : Page :=
  let st := view p in
  match e with
  | change value =>
      if (length (selectedSchools st) <? 4)%nat then
        rerender {| selectedSchools := selectedSchools st; searchQuery := value;
                    searchResults := searchResults st; loading := loading st;
                    showSearch := true |} p
      else p
  | focus =>
      if (length (selectedSchools st) <? 4)%nat then
        rerender {| selectedSchools := selectedSchools st;
                    searchQuery := searchQuery st;
                    searchResults := searchResults st; loading := loading st;
                    showSearch := true |} p
      else p
  | click_outside =>
      if showSearch st then
        rerender {| selectedSchools := selectedSchools st;
                    searchQuery := searchQuery st;
                    searchResults := searchResults st; loading := loading st;
                    showSearch := false |} p
      else p
  | click_result i =>
      match visible_results st !! i with
      | Some school => rerender (addSchool school st) p
      | None => p
      end
  | click_remove i =>
      match selectedSchools st !! i with
      | Some school => rerender (removeSchool (id school) st) p
      | None => p
      end
  | timeout =>
      match timer p with
      | Some c =>
          let (next, sent) := searchSchools_request c st in
          {| view := next; timer := None;
             inflight := match sent with
                         | Some _ => inflight p ++ [c]
                         | None => inflight p
                         end;
             console := console p |}
      | None => p
      end
  | settle i outcome =>
      match inflight p !! i with
      | Some c =>
          let (next, errors) := searchSchools_settle c outcome st in
          {| view := next; timer := timer p;
             inflight := delete i (inflight p);
             console := console p ++ errors |}
      | None => p
      end
  end.

Definition run (es : list event) (p : Page) : Page :=
  fold_left (fun p e => step e p) es p.

(** A school is added only while no request is in flight. *)
Definition adds_when_idle (e : event) (p : Page) : bool :=
  match e, inflight p with
  | click_result _, _ :: _ => false
  | _, _ => true
  end.

Fixpoint serial (es : list event) (p : Page) : bool :=
  match es with
  | [] => true
  | e :: es' => adds_when_idle e p && serial es' (step e p)
  end.

(** No school of the list has its id in the comparison set. *)
Definition none_selected (l : list School) (selected : list School) : Prop :=
  ∀ school, In school l → some_id (id school) selected = false.

End CompareSession.

(** ** The header *)

Module Header.
Import JS.

(** The component's state, [useState] by [useState]. *)
Record State : Type := {
  searchQuery : jsstring;
  isMobileMenuOpen : bool;
  isUserMenuOpen : bool
}.

Definition initial : State :=
  {| searchQuery := []; isMobileMenuOpen := false; isUserMenuOpen := false |}.

(** [handleSearch]: for a text that is not blank, [onSearch] is called with
    the trimmed text and the input is emptied; the second component is the
    argument of [onSearch], if it was called. *)
Definition handleSearch (st : State) : State * option jsstring :=
  if truthy_string (trim (searchQuery st))
  then ({| searchQuery := []; isMobileMenuOpen := isMobileMenuOpen st;
           isUserMenuOpen := isUserMenuOpen st |},
        Some (trim (searchQuery st)))
  else (st, None).

End Header.

(** ** The root component *)

Module App.
Import JS.

Record User : Type := {
  id : jsstring;
  email : jsstring;
  displayName : nullable jsstring
}.

(** The component's state, [useState] by [useState]. *)
Record State : Type := {
  user : option User;
  loading : bool;
  currentPage : Nav.Page;
  selectedSchoolId : option jsstring;
  searchQuery : jsstring
}.

Definition initial : State :=
  {| user := None; loading := true; currentPage := Nav.home;
     selectedSchoolId := None; searchQuery := [] |}.

(** The callback given to [onAuthStateChanged]. *)
Definition authStateChanged (signed_in : option User) (isLoading : bool)
    (st : State) : State :=
  {| user := signed_in; loading := isLoading; currentPage := currentPage st;
     selectedSchoolId := selectedSchoolId st; searchQuery := searchQuery st |}.

(** [navigateTo]: the page always changes; the school id only for a truthy
    [schoolId]; the query for every [query] other than [undefined]. *)
Definition navigateTo (c : Nav.call) (st : State) : State :=
  {| user := user st; loading := loading st;
     currentPage := Nav.page c;
     selectedSchoolId :=
       match Nav.schoolId c with
       | Some schoolId =>
           if truthy_string schoolId then Some schoolId else selectedSchoolId st
       | None => selectedSchoolId st
       end;
     searchQuery :=
       match Nav.query c with
       | Some query => query
       | None => searchQuery st
       end |}.

(** The [onSearch] given to the header:
    [(query) => navigateTo('search', undefined, query)]. *)
Definition onSearch (query : jsstring) (st : State) : State :=
  navigateTo {| Nav.page := Nav.search; Nav.schoolId := None;
                Nav.query := Some query |} st.

(** The element [renderPage] returns, with its props. *)
Inductive page_element : Type :=
| HomePage
| SearchPage (query : jsstring)
| SchoolDetailsPage (schoolId : jsstring)
| ComparePage.

(** [renderPage] *)
Definition renderPage (st : State) : page_element :=
  match currentPage st with
  | Nav.home => HomePage
  | Nav.search => SearchPage (searchQuery st)
  | Nav.school =>
      match selectedSchoolId st with
      | Some schoolId =>
          if truthy_string schoolId then SchoolDetailsPage schoolId else HomePage
      | None => HomePage
      end
  | Nav.compare => ComparePage
  end.

(** What the component returns: the spinner while the session is loading,
    the sign-in panel without a user, otherwise the header and the page. *)
Inductive screen : Type :=
| LoadingScreen
| SignInScreen
| Shell (signed_in : User) (highlighted_page : Nav.Page) (main : page_element).

Definition render (st : State) : screen :=
  if loading st then LoadingScreen
  else match user st with
       | None => SignInScreen
       | Some signed_in => Shell signed_in (currentPage st) (renderPage st)
       end.

(** The state after a sequence of [navigateTo] calls. *)
Definition navigations (calls : list Nav.call) (st : State) : State :=
  fold_left (fun st c => navigateTo c st) calls st.

End App.

(** ** Vocabulary of the properties *)

(** [rating] clamped to the range from 0 to 5:
    [Math.min(Math.max(rating, 0), 5)]. *)
Definition clamp (rating : JS.number) : JS.number :=
  JS.min2 (JS.max [rating; JS.Fin 0]) (JS.Fin 5).

(** The three alternatives of the text search. *)
Definition text_search (text : JS.jsstring) : Store.where_value :=
  Store.alternatives [("name", Store.contains text);
                      ("city", Store.contains text);
                      ("address", Store.contains text)].

(** [m] is the largest of [values]. *)
Definition is_maximum (m : Q) (values : list Q) : Prop :=
  In m values ∧ ∀ x, In x values → (x <= m)%Q.

(** The ratings of the selected schools in one category, when every one
    of them is a finite number. *)
Definition ratings_are (c : ComparePage.category)
    (selectedSchools : list ComparePage.School) (values : list Q) : Prop :=
  List.map (ComparePage.rating_of c) selectedSchools
  = List.map (fun q => JS.val (JS.Fin q)) values.

(** The cell of [school] is drawn in the colour of the best in category. *)
Definition highlighted (c : ComparePage.category)
    (selectedSchools : list ComparePage.School) (school : ComparePage.School)
  : Prop :=
  ComparePage.cell_class c selectedSchools school = "text-green-600".

(** The test of the cell: the rating is strictly equal to the highest. *)
Definition holds_highest (c : ComparePage.category)
    (selectedSchools : list ComparePage.School) (school : ComparePage.School)
  : Prop :=
  JS.strict_eq_val (ComparePage.rating_of c school)
                   (ComparePage.getHighestRating c selectedSchools) = true.

(** The comparison set holds at most four schools, no two with one id. *)
Definition set_ok (st : ComparePage.State) : Prop :=
  (length (ComparePage.selectedSchools st) <= 4)%nat
  ∧ List.NoDup (List.map ComparePage.id (ComparePage.selectedSchools st)).

(** Every id of [selected] is also an id of [seen]. *)
Definition covers (seen selected : list ComparePage.School) : Prop :=
  ∀ x, ComparePage.some_id x selected = true → ComparePage.some_id x seen = true.

(** No result has a selected id, and the function of every pending timer
    and of every request in flight sees all the selected ids. *)
Definition results_fresh (p : CompareSession.Page) : Prop :=
  let st := CompareSession.view p in
  CompareSession.none_selected (ComparePage.searchResults st)
                               (ComparePage.selectedSchools st)
  ∧ (∀ c, In c (CompareSession.inflight p) →
          covers (ComparePage.seen_selected c) (ComparePage.selectedSchools st))
  ∧ (∀ c, CompareSession.timer p = Some c →
          covers (ComparePage.seen_selected c) (ComparePage.selectedSchools st)).

(** A raw record with the given id and name, every rating column holding
    [rating]. *)
Definition sample_record (ident title : string) (rating : JS.nullable JS.number)
  : Store.school_record :=
  {| Store.id := JS.js ident; Store.name := JS.js title;
     Store.address := JS.js "1 Main Street"; Store.city := JS.js "Springfield";
     Store.state := JS.js "IL"; Store.zip_code := JS.undefined;
     Store.phone := JS.undefined; Store.website := JS.undefined;
     Store.school_type := JS.js "public"; Store.grade_levels := JS.js "K-12";
     Store.description := JS.undefined; Store.image_url := JS.undefined;
     Store.overall_rating := rating; Store.academics_rating := rating;
     Store.facilities_rating := rating; Store.teachers_rating := rating;
     Store.safety_rating := rating; Store.extracurriculars_rating := rating;
     Store.total_reviews := JS.val (JS.Fin 12) |}.

(** The same as a school of the Compare view. *)
Definition sample_school (ident : string) (rating : Q) : ComparePage.School :=
  ComparePage.toSchool (sample_record ident ident (JS.val (JS.Fin rating))).

(** The filter state of the scenario: no type, no grade level, a minimum
    rating of 4, sorted by name. *)
Definition lincoln_filters : SearchPage.Filters :=
  {| SearchPage.schoolType_ := []; SearchPage.gradeLevel := [];
     SearchPage.minRating := JS.Fin 4; SearchPage.sortBy := JS.js "name" |}.

(** The record every request of the scenario returns. *)
Definition lincoln_high : Store.school_record :=
  sample_record "s1" "Lincoln High" (JS.val (JS.Fin 4)).

(** Two requests overlap: the second settles first and its school is
    added, then the first settles. *)
Definition overlapping_requests : list CompareSession.event :=
  [CompareSession.timeout;
   CompareSession.change (JS.js "Lin");
   CompareSession.timeout;
   CompareSession.change (JS.js "Linc");
   CompareSession.timeout;
   CompareSession.settle 1 (Store.fulfilled [lincoln_high]);
   CompareSession.click_result 0;
   CompareSession.settle 0 (Store.fulfilled [lincoln_high]);
   CompareSession.change (JS.js "L")].

(** One request at a time: the school found for "Lin" is added and the
    box is opened again. *)
Definition one_request_at_a_time : list CompareSession.event :=
  [CompareSession.timeout;
   CompareSession.change (JS.js "Lin");
   CompareSession.timeout;
   CompareSession.settle 0 (Store.fulfilled [lincoln_high]);
   CompareSession.click_result 0;
   CompareSession.change (JS.js "L");
   CompareSession.timeout;
   CompareSession.settle 0 (Store.fulfilled [lincoln_high])].

(** The colour classes of [getRatingColor], from worst to best. *)
Definition colour_rank (class : string) : nat :=
  if bool_decide (class = "text-green-600") then 4
  else if bool_decide (class = "text-green-500") then 3
  else if bool_decide (class = "text-yellow-500") then 2
  else if bool_decide (class = "text-orange-500") then 1
  else 0.

(** The function of a pending timer sees the query as it is now, and no
    request in flight was sent for a blank query. *)
Definition timer_current (p : CompareSession.Page) : Prop :=
  (∀ c, CompareSession.timer p = Some c →
        ComparePage.seen_query c = ComparePage.searchQuery (CompareSession.view p))
  ∧ (∀ c, In c (CompareSession.inflight p) →
          JS.trim (ComparePage.seen_query c) ≠ []).

(** The star pattern with [nfull] full stars, then [nhalf] half stars, then
    empty stars up to five. *)
Definition pattern (nfull nhalf : nat) : list glyph :=
  repeat full nfull ++ repeat half nhalf ++ repeat empty (5 - nfull - nhalf).

(** A raw record with a rating in every column but academics, which the
    record lacks. *)
Definition no_academics : Store.school_record :=
  {| Store.id := JS.js "s0"; Store.name := JS.js "Linwood Academy";
     Store.address := JS.js "2 Oak Street"; Store.city := JS.js "Springfield";
     Store.state := JS.js "IL"; Store.zip_code := JS.undefined;
     Store.phone := JS.undefined; Store.website := JS.undefined;
     Store.school_type := JS.js "private"; Store.grade_levels := JS.js "K-12";
     Store.description := JS.undefined; Store.image_url := JS.undefined;
     Store.overall_rating := JS.val (JS.Fin 4);
     Store.academics_rating := JS.undefined;
     Store.facilities_rating := JS.val (JS.Fin 3);
     Store.teachers_rating := JS.val (JS.Fin (7 # 2));
     Store.safety_rating := JS.val (JS.Fin 5);
     Store.extracurriculars_rating := JS.val (JS.Fin (9 # 2));
     Store.total_reviews := JS.val (JS.Fin 7) |}.

(** Both schools found for "Lin" are added, one request at a time. *)
Definition two_schools_added : list CompareSession.event :=
  [CompareSession.timeout;
   CompareSession.change (JS.js "Lin");
   CompareSession.timeout;
   CompareSession.settle 0 (Store.fulfilled [no_academics; lincoln_high]);
   CompareSession.click_result 0;
   CompareSession.change (JS.js "Lin");
   CompareSession.timeout;
   CompareSession.settle 0 (Store.fulfilled [no_academics; lincoln_high]);
   CompareSession.click_result 0].

(** * Properties *)

Example trim_pads : JS.trim (JS.js "  Lincoln ") = JS.js "Lincoln".
Proof. reflexivity. Qed.

Example max_of_three :
  JS.max [JS.Fin 4; JS.Fin (9 # 2); JS.Fin (9 # 2)] = JS.Fin (9 # 2).
Proof. reflexivity. Qed.

(** ** Numbers *)

Section NumberFacts.
Import JS.

Lemma Qlt_bool_iff (x y : Q) : Qlt_bool x y = true ↔ (x < y)%Q.
Proof.
  unfold Qlt_bool. rewrite negb_true_iff, <- not_true_iff_false, Qle_bool_iff.
  split; [apply Qnot_le_lt | apply Qlt_not_le].
Qed.

Lemma Qlt_bool_false_iff (x y : Q) : Qlt_bool x y = false ↔ (y <= x)%Q.
Proof.
  unfold Qlt_bool. rewrite negb_false_iff. apply Qle_bool_iff.
Qed.

Lemma lt_Fin (x y : Q) : lt (Fin x) (Fin y) = true ↔ (x < y)%Q.
Proof. apply Qlt_bool_iff. Qed.

Lemma ge_Fin (x y : Q) : ge (Fin x) (Fin y) = true ↔ (y <= x)%Q.
Proof.
  simpl. rewrite negb_true_iff. apply Qlt_bool_false_iff.
Qed.

Lemma strict_eq_Fin (x y : Q) : strict_eq (Fin x) (Fin y) = true ↔ (x == y)%Q.
Proof. apply Qeq_bool_iff. Qed.

(** An index is below the floor of [q] exactly when the integer
    comparison says so. *)
Lemma lt_of_nat_floor (i : nat) (q : Q) :
  lt (of_nat i) (floor (Fin q)) = true ↔ (Z.of_nat i < Qfloor q)%Z.
Proof.
  unfold of_nat, floor. rewrite lt_Fin, Zlt_Qlt. reflexivity.
Qed.

Lemma lt_of_nat (i : nat) (q : Q) :
  lt (of_nat i) (Fin q) = true ↔ (inject_Z (Z.of_nat i) < q)%Q.
Proof. apply lt_Fin. Qed.

(** Below the floor is below the number. *)
Lemma below_floor (z : Z) (q : Q) : (z < Qfloor q)%Z → (inject_Z z < q)%Q.
Proof.
  intros H. apply Qlt_le_trans with (inject_Z (Qfloor q)).
  - rewrite <- Zlt_Qlt. exact H.
  - apply Qfloor_le.
Qed.

End NumberFacts.

(** ** The star pattern *)

Section StarPattern.
Import JS.

Lemma star_finite (q : Q) (i : nat) :
  (star (Fin q) i = full ↔ (Z.of_nat i < Qfloor q)%Z)
  ∧ (star (Fin q) i = half
     ↔ (Qfloor q <= Z.of_nat i)%Z ∧ (inject_Z (Z.of_nat i) < q)%Q)
  ∧ (star (Fin q) i = empty ↔ (q <= inject_Z (Z.of_nat i))%Q).
Proof.
  unfold star.
  destruct (lt (of_nat i) (floor (Fin q))) eqn:Hfloor.
  - apply lt_of_nat_floor in Hfloor.
    pose proof (below_floor _ _ Hfloor) as Hlt.
    split; [| split]; (split; [intros Heq | intros Hpos]);
      try discriminate; try assumption; try reflexivity.
    + destruct Hpos as [Hpos _]. lia.
    + exfalso. exact (Qlt_not_le _ _ Hlt Hpos).
  - assert (Hge : (Qfloor q <= Z.of_nat i)%Z).
    { destruct (Z_lt_le_dec (Z.of_nat i) (Qfloor q)) as [Hlt | Hle]; [| exact Hle].
      apply lt_of_nat_floor in Hlt. congruence. }
    destruct (lt (of_nat i) (Fin q)) eqn:Hnum.
    + apply lt_of_nat in Hnum.
      split; [| split]; (split; [intros Heq | intros Hpos]);
        try discriminate; try reflexivity; try lia.
      * split; assumption.
      * exfalso. exact (Qlt_not_le _ _ Hnum Hpos).
    + assert (Hle : (q <= inject_Z (Z.of_nat i))%Q).
      { apply Qnot_lt_le. intros Hlt. apply lt_of_nat in Hlt. congruence. }
      split; [| split]; (split; [intros Heq | intros Hpos]);
        try discriminate; try reflexivity; try assumption; try lia.
      destruct Hpos as [_ Hpos]. exfalso. exact (Qlt_not_le _ _ Hpos Hle).
Qed.

Lemma stars_positions (n : number) :
  stars n = [star n 0; star n 1; star n 2; star n 3; star n 4].
Proof. reflexivity. Qed.

(** Below zero every star is empty. *)
Lemma star_negative (q : Q) (i : nat) : (q < 0)%Q → star (Fin q) i = empty.
Proof.
  intros Hq. apply star_finite. apply Qlt_le_weak.
  apply Qlt_le_trans with 0%Q; [exact Hq |].
  change 0%Q with (inject_Z 0). rewrite <- Zle_Qle. lia.
Qed.

(** From five on every one of the five stars is full. *)
Lemma star_saturated (q : Q) (i : nat) :
  (5 <= q)%Q → (i < 5)%nat → star (Fin q) i = full.
Proof.
  intros Hq Hi. apply star_finite.
  apply Qfloor_resp_le in Hq. change (Qfloor 5) with 5%Z in Hq. lia.
Qed.

Lemma stars_clamp (n : number) : stars n = stars (clamp n).
Proof.
  destruct n as [| | q |]; try reflexivity.
  unfold clamp, max. cbn [fold_left].
  change (max2 NegInfinity (Fin q)) with (Fin q).
  unfold max2. destruct (lt (Fin q) (Fin 0)) eqn:Hneg.
  - apply lt_Fin in Hneg.
    change (min2 (Fin 0) (Fin 5)) with (Fin 0).
    rewrite stars_positions, !star_negative by exact Hneg. reflexivity.
  - unfold min2. destruct (lt (Fin 5) (Fin q)) eqn:Hbig; [| reflexivity].
    apply lt_Fin in Hbig. apply Qlt_le_weak in Hbig.
    rewrite stars_positions, !star_saturated by (exact Hbig || lia).
    reflexivity.
Qed.

(** The pattern only depends on the value of the rating. *)
Lemma star_Qeq (p q : Q) (i : nat) : (p == q)%Q → star (Fin p) i = star (Fin q) i.
Proof.
  intros Hpq.
  destruct (star_finite q i) as (Hfull & Hhalf & Hempty).
  destruct (star (Fin q) i) eqn:Hq; apply star_finite.
  - rewrite (Qfloor_comp _ _ Hpq). apply Hfull. reflexivity.
  - rewrite (Qfloor_comp _ _ Hpq), Hpq. apply Hhalf. reflexivity.
  - rewrite Hpq. apply Hempty. reflexivity.
Qed.

(** The [rating || 0] guard of the Search and details views changes
    nothing: NaN and zero draw five empty stars as well. *)
Lemma stars_guard (n : number) :
  stars (if truthy_number n then n else Fin 0) = stars n.
Proof.
  destruct n as [| | q |]; try reflexivity.
  unfold truthy_number. destruct (Qeq_bool q 0) eqn:Hz; [| reflexivity].
  apply Qeq_bool_iff in Hz. cbn [negb].
  rewrite !stars_positions, !(star_Qeq q 0) by exact Hz. reflexivity.
Qed.

End StarPattern.

(** C7: [renderStars] always draws five stars; star [i] is full when
    [i < floor(rating)], half when [floor(rating) <= i < rating], and empty
    otherwise; 3.5 draws three full stars, a half and an empty one, 0 draws
    five empty and 5 five full stars; any number, also NaN, an infinity or
    one outside the range from 0 to 5, draws the pattern of its clamped
    value.  The [renderStars] of the four views all draw this pattern, with
    or without their [rating || 0] guard, and an absent rating draws five
    empty stars. *)
Theorem C7_star_pattern (n : JS.number) (q : Q) (i : nat) :
  length (stars n) = 5%nat
  ∧ (stars (JS.Fin q) !! i = Some full
     ↔ (i < 5)%nat ∧ (Z.of_nat i < Qfloor q)%Z)
  ∧ (stars (JS.Fin q) !! i = Some half
     ↔ (i < 5)%nat ∧ (Qfloor q <= Z.of_nat i)%Z ∧ (inject_Z (Z.of_nat i) < q)%Q)
  ∧ (stars (JS.Fin q) !! i = Some empty
     ↔ (i < 5)%nat ∧ (q <= inject_Z (Z.of_nat i))%Q)
  ∧ stars (JS.Fin (7 # 2)) = [full; full; full; half; empty]
  ∧ stars (JS.Fin 0) = [empty; empty; empty; empty; empty]
  ∧ stars (JS.Fin 5) = [full; full; full; full; full]
  ∧ stars n = stars (clamp n)
  ∧ SearchPage.renderStars n = stars n
  ∧ SchoolDetailsPage.renderStars n = stars n
  ∧ ComparePage.renderStars (JS.val n) = stars n
  ∧ HomePage.renderStars (JS.val n) = stars n
  ∧ ComparePage.renderStars JS.null = [empty; empty; empty; empty; empty]
  ∧ ComparePage.renderStars JS.undefined = [empty; empty; empty; empty; empty].
Proof.
  assert (Hpos : ∀ g, stars (JS.Fin q) !! i = Some g
                      ↔ (i < 5)%nat ∧ star (JS.Fin q) i = g).
  { intros g. rewrite stars_positions.
    do 5 (destruct i as [| i];
          [cbn; split; [intros [= <-]; split; [lia | reflexivity]
                       | intros [_ <-]; reflexivity] |]).
    cbn. split; [discriminate | lia]. }
  destruct (star_finite q i) as (Hfull & Hhalf & Hempty).
  split; [reflexivity |].
  split; [rewrite Hpos, Hfull; reflexivity |].
  split; [rewrite Hpos, Hhalf; reflexivity |].
  split; [rewrite Hpos, Hempty; reflexivity |].
  split; [reflexivity |]. split; [reflexivity |]. split; [reflexivity |].
  split; [apply stars_clamp |].
  split; [apply stars_guard |]. split; [apply stars_guard |].
  repeat split.
Qed.

(** ** The query builder of the Search view *)

Section QueryBuilder.
Import JS SearchPage.

Lemma whereClause_OR (searchQuery : jsstring) (filters : Filters) :
  whereClause searchQuery filters !! "OR"
  = if truthy_string (trim searchQuery) then Some (text_search searchQuery)
    else None.
Proof.
  unfold whereClause, text_search.
  repeat match goal with |- context [if ?b then _ else _] => destruct b end;
    simplify_map_eq; reflexivity.
Qed.

Lemma whereClause_school_type (searchQuery : jsstring) (filters : Filters) :
  whereClause searchQuery filters !! "school_type"
  = match schoolType_ filters with
    | [] => None
    | _ :: _ => Some (Store.on_field (Store.in_ (schoolType_ filters)))
    end.
Proof.
  unfold whereClause.
  destruct (schoolType_ filters) as [| t ts]; cbn [length Nat.ltb Nat.leb];
    repeat match goal with |- context [if ?b then _ else _] => destruct b end;
    simplify_map_eq; reflexivity.
Qed.

Lemma whereClause_grade_levels (searchQuery : jsstring) (filters : Filters) :
  whereClause searchQuery filters !! "grade_levels"
  = match gradeLevel filters with
    | [] => None
    | _ :: _ => Some (Store.on_field (Store.contains (gradeLevel filters)))
    end.
Proof.
  unfold whereClause.
  destruct (gradeLevel filters) as [| c cs]; cbn [truthy_string];
    repeat match goal with |- context [if ?b then _ else _] => destruct b end;
    simplify_map_eq; reflexivity.
Qed.

Lemma whereClause_overall_rating (searchQuery : jsstring) (filters : Filters) :
  whereClause searchQuery filters !! "overall_rating"
  = if gt (minRating filters) (Fin 0)
    then Some (Store.on_field (Store.gte (minRating filters)))
    else None.
Proof.
  unfold whereClause.
  repeat match goal with |- context [if ?b then _ else _] => destruct b end;
    simplify_map_eq; reflexivity.
Qed.

Lemma whereClause_other (searchQuery : jsstring) (filters : Filters) (k : string) :
  k ≠ "OR" → k ≠ "school_type" → k ≠ "grade_levels" → k ≠ "overall_rating" →
  whereClause searchQuery filters !! k = None.
Proof.
  intros H1 H2 H3 H4. unfold whereClause.
  repeat match goal with |- context [if ?b then _ else _] => destruct b end;
    simplify_map_eq; reflexivity.
Qed.

(** The object has no key exactly when none of the four filters applies. *)
Lemma whereClause_empty (searchQuery : jsstring) (filters : Filters) :
  size (whereClause searchQuery filters) = 0%nat
  ↔ trim searchQuery = [] ∧ schoolType_ filters = []
    ∧ gradeLevel filters = [] ∧ gt (minRating filters) (Fin 0) = false.
Proof.
  rewrite map_size_empty_iff. split.
  - intros Hempty.
    pose proof (whereClause_OR searchQuery filters) as Hor.
    pose proof (whereClause_school_type searchQuery filters) as Htype.
    pose proof (whereClause_grade_levels searchQuery filters) as Hgrade.
    pose proof (whereClause_overall_rating searchQuery filters) as Hrating.
    rewrite Hempty, lookup_empty in Hor, Htype, Hgrade, Hrating.
    destruct (trim searchQuery); [| discriminate].
    destruct (schoolType_ filters); [| discriminate].
    destruct (gradeLevel filters); [| discriminate].
    destruct (gt (minRating filters) (Fin 0)); [discriminate |].
    repeat split.
  - intros (Htext & Htype & Hgrade & Hrating).
    unfold whereClause. rewrite Htext, Htype, Hgrade, Hrating. reflexivity.
Qed.

End QueryBuilder.

(** C1: the [where] object of the Search view holds, for every filter
    state, exactly the clauses of the fields that are set: under [OR] the
    three [contains] alternatives on name, city and address when the trimmed
    text is non-empty, under [school_type] an [in] clause when the type list
    is non-empty, under [grade_levels] a [contains] clause when a grade
    level is selected, under [overall_rating] a [gte] clause when
    [minRating > 0], and no other key; the request carries no filter exactly
    when none of them applies, as in the default state, and otherwise that
    object.  Searching "Lincoln" with a minimum rating of 4 sorted by name
    sends the three alternatives and [overall_rating >= 4], ordered by name
    ascending, capped at 50. *)
Theorem C1_query_builder
    (searchQuery : JS.jsstring) (filters : SearchPage.Filters) (k : string) :
  let w := SearchPage.whereClause searchQuery filters in
  let sent := SearchPage.listOptions searchQuery filters in
  (w !! "OR" = if JS.truthy_string (JS.trim searchQuery)
               then Some (text_search searchQuery) else None)
  ∧ (w !! "school_type"
     = match SearchPage.schoolType_ filters with
       | [] => None
       | _ :: _ => Some (Store.on_field (Store.in_ (SearchPage.schoolType_ filters)))
       end)
  ∧ (w !! "grade_levels"
     = match SearchPage.gradeLevel filters with
       | [] => None
       | _ :: _ =>
           Some (Store.on_field (Store.contains (SearchPage.gradeLevel filters)))
       end)
  ∧ (w !! "overall_rating"
     = if JS.gt (SearchPage.minRating filters) (JS.Fin 0)
       then Some (Store.on_field (Store.gte (SearchPage.minRating filters)))
       else None)
  ∧ (∀ m, SearchPage.minRating filters = JS.Fin m →
          (is_Some (w !! "overall_rating") ↔ (0 < m)%Q))
  ∧ (k ≠ "OR" → k ≠ "school_type" → k ≠ "grade_levels" → k ≠ "overall_rating" →
     w !! k = None)
  ∧ (Store.where_ sent = None
     ↔ JS.trim searchQuery = [] ∧ SearchPage.schoolType_ filters = []
       ∧ SearchPage.gradeLevel filters = []
       ∧ JS.gt (SearchPage.minRating filters) (JS.Fin 0) = false)
  ∧ (Store.where_ sent = None ∨ Store.where_ sent = Some w)
  ∧ Store.where_ (SearchPage.listOptions [] SearchPage.noFilters) = None
  ∧ SearchPage.listOptions (JS.js "Lincoln") lincoln_filters
    = {| Store.where_ :=
           Some {[ "OR" := text_search (JS.js "Lincoln");
                   "overall_rating" := Store.on_field (Store.gte (JS.Fin 4)) ]};
         Store.orderBy := {[ "name" := Store.asc ]};
         Store.limit := 50 |}.
Proof.
  intros w sent.
  split; [apply whereClause_OR |].
  split; [apply whereClause_school_type |].
  split; [apply whereClause_grade_levels |].
  split; [apply whereClause_overall_rating |].
  split.
  { intros m Hm. subst w. rewrite whereClause_overall_rating, Hm.
    unfold JS.gt. destruct (JS.lt (JS.Fin 0) (JS.Fin m)) eqn:Hlt.
    - apply lt_Fin in Hlt. split; [intros _; exact Hlt | intros _; eexists; reflexivity].
    - split; [intros [x Hx]; discriminate |].
      intros Hpos. apply lt_Fin in Hpos. congruence. }
  split; [apply whereClause_other |].
  assert (Hsent : Store.where_ sent
                  = if (0 <? size w)%nat then Some w else None) by reflexivity.
  split.
  { rewrite Hsent, <- whereClause_empty. fold w.
    destruct (size w); cbn; split; intros H; congruence. }
  split.
  { rewrite Hsent. destruct (0 <? size w)%nat; [right | left]; reflexivity. }
  split; [reflexivity |].
  vm_compute. reflexivity.
Qed.

Lemma C1_query_builder_witness :
  SearchPage.minRating lincoln_filters = JS.Fin 4
  ∧ is_Some (SearchPage.whereClause (JS.js "Lincoln") lincoln_filters
             !! "overall_rating")
  ∧ SearchPage.whereClause (JS.js "Lincoln") lincoln_filters !! "limit" = None.
Proof.
  destruct (C1_query_builder (JS.js "Lincoln") lincoln_filters "limit")
    as (_ & _ & _ & _ & Hmin & Hother & _).
  split; [reflexivity |]. split.
  - apply (Hmin 4%Q); reflexivity.
  - apply Hother; discriminate.
Defined.

(** C6: the sort selection always yields an ordering: [rating] orders by
    [overall_rating] descending, [reviews] by [total_reviews] descending,
    [name] by [name] ascending, and every other value falls back to
    [overall_rating] descending. *)
Theorem C6_sort_mapping (sortBy : JS.jsstring) :
  SearchPage.orderBy (JS.js "rating") = {[ "overall_rating" := Store.desc ]}
  ∧ SearchPage.orderBy (JS.js "reviews") = {[ "total_reviews" := Store.desc ]}
  ∧ SearchPage.orderBy (JS.js "name") = {[ "name" := Store.asc ]}
  ∧ (sortBy ≠ JS.js "rating" → sortBy ≠ JS.js "reviews" → sortBy ≠ JS.js "name" →
     SearchPage.orderBy sortBy = {[ "overall_rating" := Store.desc ]})
  ∧ (∀ searchQuery filters,
       Store.orderBy (SearchPage.listOptions searchQuery filters)
       = SearchPage.orderBy (SearchPage.sortBy filters)).
Proof.
  split; [reflexivity |]. split; [reflexivity |]. split; [reflexivity |].
  split; [| reflexivity].
  intros Hrating Hreviews Hname. unfold SearchPage.orderBy.
  rewrite !bool_decide_eq_false_2 by assumption. reflexivity.
Qed.

Lemma C6_sort_mapping_witness :
  JS.js "distance" ≠ JS.js "rating"
  ∧ SearchPage.orderBy (JS.js "distance") = {[ "overall_rating" := Store.desc ]}.
Proof.
  split; [discriminate |].
  apply (C6_sort_mapping (JS.js "distance")); discriminate.
Defined.

(** C9: every query the Search view sends is capped at 50 results, and
    every query the add-school search of the Compare view sends, which it
    does exactly for a query that is not blank, is capped at 10. *)
Theorem C9_result_caps
    (st : SearchPage.State) (c : ComparePage.Closure) (cst : ComparePage.State)
    (sent : Store.list_options) :
  Store.limit (snd (SearchPage.searchSchools_request st)) = 50%nat
  ∧ (snd (ComparePage.searchSchools_request c cst) = Some sent →
     Store.limit sent = 10%nat)
  ∧ (is_Some (snd (ComparePage.searchSchools_request c cst))
     ↔ JS.trim (ComparePage.seen_query c) ≠ []).
Proof.
  split; [reflexivity |].
  unfold ComparePage.searchSchools_request.
  destruct (JS.trim (ComparePage.seen_query c)) as [| ch rest]; cbn.
  - split; [discriminate |]. split; [intros [x Hx]; discriminate | congruence].
  - split; [intros [= <-]; reflexivity |].
    split; [discriminate | intros _; eexists; reflexivity].
Qed.

Lemma C9_result_caps_witness :
  Store.limit (ComparePage.listOptions (JS.js "Lincoln")) = 10%nat.
Proof.
  apply (C9_result_caps (SearchPage.initial [])
           {| ComparePage.seen_query := JS.js "Lincoln";
              ComparePage.seen_selected := [] |}
           ComparePage.initial).
  reflexivity.
Defined.

(** ** The comparison table *)

Section Highest.
Import JS ComparePage.

(** Folding [Math.max] over finite numbers from a finite start keeps the
    largest value seen. *)
Lemma max_fold_finite (values : list Q) (a : Q) :
  ∃ m, fold_left max2 (List.map Fin values) (Fin a) = Fin m
       ∧ (m = a ∨ In m values) ∧ (a <= m)%Q ∧ ∀ x, In x values → (x <= m)%Q.
Proof.
  revert a. induction values as [| v values IH]; intros a.
  - exists a. cbn. repeat split; [left; reflexivity | apply Qle_refl | intros x []].
  - cbn [List.map fold_left]. unfold max2 at 2.
    destruct (lt (Fin a) (Fin v)) eqn:Hlt.
    + apply lt_Fin in Hlt. destruct (IH v) as (m & Hm & Hin & Hle & Hall).
      exists m. split; [exact Hm |]. split; [| split].
      * right. destruct Hin as [-> | Hin]; [left; reflexivity | right; exact Hin].
      * apply Qle_trans with v; [apply Qlt_le_weak; exact Hlt | exact Hle].
      * intros x [<- | Hx]; [exact Hle | apply Hall; exact Hx].
    + assert (Hva : (v <= a)%Q).
      { apply Qnot_lt_le. intros H. apply lt_Fin in H. congruence. }
      destruct (IH a) as (m & Hm & Hin & Hle & Hall).
      exists m. split; [exact Hm |]. split; [| split].
      * destruct Hin as [-> | Hin]; [left; reflexivity | right; right; exact Hin].
      * exact Hle.
      * intros x [<- | Hx]; [apply Qle_trans with a; assumption | apply Hall; exact Hx].
Qed.

(** [Math.max] of a non-empty list of finite numbers is its maximum. *)
Lemma max_finite (values : list Q) :
  values ≠ [] → ∃ m, max (List.map Fin values) = Fin m ∧ is_maximum m values.
Proof.
  destruct values as [| v values]; [congruence | intros _].
  unfold max. cbn [List.map fold_left].
  change (max2 NegInfinity (Fin v)) with (Fin v).
  destruct (max_fold_finite values v) as (m & Hm & Hin & Hle & Hall).
  exists m. split; [exact Hm |]. split.
  - destruct Hin as [-> | Hin]; [left; reflexivity | right; exact Hin].
  - intros x [<- | Hx]; [exact Hle | apply Hall; exact Hx].
Qed.

(** With finite ratings [getHighestRating] sees the numbers themselves. *)
Lemma ratings_ToNumber (c : category) (selected : list School) (values : list Q) :
  ratings_are c selected values →
  List.map (fun school => ToNumber (rating_of c school)) selected
  = List.map Fin values.
Proof.
  unfold ratings_are. revert values.
  induction selected as [| s selected IH]; intros [| v values] H;
    try discriminate; [reflexivity |].
  cbn in *. injection H as Hs Hrest. rewrite Hs, (IH values Hrest). reflexivity.
Qed.

Lemma getHighestRating_finite (c : category) (selected : list School)
    (values : list Q) :
  selected ≠ [] → ratings_are c selected values →
  ∃ m, getHighestRating c selected = Fin m ∧ is_maximum m values.
Proof.
  intros Hne Hvalues. unfold getHighestRating.
  destruct selected as [| s selected]; [congruence |].
  cbn [length Nat.eqb]. rewrite (ratings_ToNumber _ _ _ Hvalues).
  apply max_finite. destruct values; [discriminate | congruence].
Qed.

(** [getRatingColor] gives the top colour from 4.5 on, and only then. *)
Lemma getRatingColor_top (r : Q) :
  getRatingColor (val (Fin r)) = "text-green-600" ↔ (9 # 2 <= r)%Q.
Proof.
  unfold getRatingColor. cbn [ToNumber]. rewrite <- ge_Fin.
  destruct (ge (Fin r) (Fin (9 # 2))); [split; reflexivity |].
  repeat match goal with |- context [if ?b then _ else _] => destruct b end;
    split; discriminate.
Qed.

End Highest.

(** C4: [getHighestRating] returns 0 for an empty comparison set; it reads
    the rating field its category names, the column of the same name of the
    raw record; for a non-empty set whose ratings in the category are
    numbers it returns the maximum of those ratings, 4.5 over the academics
    ratings 4.0, 4.5 and 4.5.  But the mapper of the Compare view copies a
    missing column as [undefined]: after both schools found for "Lin" are
    added, one of them without an academics rating, the highest academics
    rating is NaN, not the 4 of the other school, although the highest
    overall rating is 4 and the details view maps the same missing column
    to 0. *)
Theorem C4_highest_in_category
    (c : ComparePage.category) (selectedSchools : list ComparePage.School)
    (values : list Q) (record : Store.school_record) :
  ComparePage.getHighestRating c [] = JS.Fin 0
  ∧ (ComparePage.rating_of ComparePage.overall (ComparePage.toSchool record)
     = Store.overall_rating record
     ∧ ComparePage.rating_of ComparePage.academics (ComparePage.toSchool record)
       = Store.academics_rating record
     ∧ ComparePage.rating_of ComparePage.teachers (ComparePage.toSchool record)
       = Store.teachers_rating record
     ∧ ComparePage.rating_of ComparePage.facilities (ComparePage.toSchool record)
       = Store.facilities_rating record
     ∧ ComparePage.rating_of ComparePage.safety (ComparePage.toSchool record)
       = Store.safety_rating record
     ∧ ComparePage.rating_of ComparePage.extracurriculars
         (ComparePage.toSchool record)
       = Store.extracurriculars_rating record)
  ∧ ComparePage.getHighestRating c [ComparePage.toSchool record]
    = JS.max2 JS.NegInfinity
        (JS.ToNumber (ComparePage.rating_of c (ComparePage.toSchool record)))
  ∧ (selectedSchools ≠ [] → ratings_are c selectedSchools values →
     ∃ m, ComparePage.getHighestRating c selectedSchools = JS.Fin m
          ∧ is_maximum m values)
  ∧ ComparePage.getHighestRating ComparePage.academics
      [sample_school "a" 4; sample_school "b" (9 # 2); sample_school "c" (9 # 2)]
    = JS.Fin (9 # 2)
  ∧ (let p := CompareSession.run two_schools_added CompareSession.mounted in
     let selected := ComparePage.selectedSchools (CompareSession.view p) in
     CompareSession.serial two_schools_added CompareSession.mounted = true
     ∧ selected
       = [ComparePage.toSchool no_academics; ComparePage.toSchool lincoln_high]
     ∧ ComparePage.getHighestRating ComparePage.academics selected = JS.NaN
     ∧ ComparePage.getHighestRating ComparePage.overall selected = JS.Fin 4
     ∧ ComparePage.getHighestRating ComparePage.safety selected = JS.Fin 5
     ∧ ComparePage.rating_of ComparePage.academics
         (ComparePage.toSchool lincoln_high) = JS.val (JS.Fin 4)
     ∧ SchoolDetailsPage.academicsRating (SchoolDetailsPage.toSchool no_academics)
       = JS.Fin 0).
Proof.
  split; [reflexivity |].
  split; [repeat split |].
  split; [reflexivity |].
  split; [apply getHighestRating_finite |].
  split; [reflexivity |].
  cbv zeta.
  assert (Hsel : ComparePage.selectedSchools
                   (CompareSession.view
                      (CompareSession.run two_schools_added CompareSession.mounted))
                 = [ComparePage.toSchool no_academics;
                    ComparePage.toSchool lincoln_high]) by (vm_compute; reflexivity).
  rewrite Hsel.
  split; [vm_compute; reflexivity |]. repeat split.
Qed.

Lemma C4_highest_in_category_witness :
  ∃ m, ComparePage.getHighestRating ComparePage.safety
         [sample_school "a" 3; sample_school "b" (7 # 2)] = JS.Fin m
       ∧ is_maximum m [3%Q; 7 # 2].
Proof.
  destruct (C4_highest_in_category ComparePage.safety
              [sample_school "a" 3; sample_school "b" (7 # 2)] [3%Q; 7 # 2]
              lincoln_high) as (_ & _ & _ & Hmax & _).
  apply Hmax.
  - discriminate.
  - reflexivity.
Defined.

(** C5, as stated, fails: next to a school rated 5 a school rated 4.5 is
    not the best overall, yet its cell is drawn in the same colour, the one
    [getRatingColor] gives to every rating from 4.5 on. *)
Lemma C5_counterexample :
  ¬ (∀ c selectedSchools school,
       selectedSchools ≠ [] → In school selectedSchools →
       (highlighted c selectedSchools school
        ↔ holds_highest c selectedSchools school)).
Proof.
  intros Hclaim.
  pose (a := sample_school "a" 5). pose (b := sample_school "b" (9 # 2)).
  destruct (Hclaim ComparePage.overall [a; b] b) as [Hbest _].
  - discriminate.
  - right. left. reflexivity.
  - specialize (Hbest eq_refl). vm_compute in Hbest. discriminate.
Qed.

(** C5, amended: in a non-empty comparison set with numeric ratings, the
    test of a cell succeeds exactly when the school's rating equals the
    maximum of the category, so every school sharing the maximum passes it;
    the cell is drawn in the colour of the best exactly when the rating
    equals the maximum or is at least 4.5. *)
Theorem C5_highlight
    (c : ComparePage.category) (selectedSchools : list ComparePage.School)
    (values : list Q) (school : ComparePage.School) (r : Q) :
  selectedSchools ≠ [] → ratings_are c selectedSchools values →
  In school selectedSchools → ComparePage.rating_of c school = JS.val (JS.Fin r) →
  ∃ m, is_maximum m values
       ∧ (holds_highest c selectedSchools school ↔ (r == m)%Q)
       ∧ (highlighted c selectedSchools school ↔ (r == m)%Q ∨ (9 # 2 <= r)%Q).
Proof.
  intros Hne Hvalues Hin Hr.
  destruct (getHighestRating_finite c selectedSchools values Hne Hvalues)
    as (m & Hm & Hmax).
  exists m. split; [exact Hmax |].
  assert (Htest : holds_highest c selectedSchools school ↔ (r == m)%Q).
  { unfold holds_highest. rewrite Hr, Hm. apply strict_eq_Fin. }
  split; [exact Htest |].
  unfold highlighted, ComparePage.cell_class. fold (holds_highest c selectedSchools school) in Htest.
  unfold holds_highest in Htest.
  destruct (JS.strict_eq_val (ComparePage.rating_of c school)
              (ComparePage.getHighestRating c selectedSchools)).
  - split; [intros _; left; apply Htest; reflexivity | reflexivity].
  - rewrite Hr, getRatingColor_top. split; [intros H; right; exact H |].
    intros [H | H]; [apply Htest in H; discriminate | exact H].
Qed.

Lemma C5_highlight_witness :
  ∃ m, is_maximum m [5%Q; 9 # 2; 5%Q]
       ∧ (holds_highest ComparePage.teachers
            [sample_school "a" 5; sample_school "b" (9 # 2); sample_school "c" 5]
            (sample_school "c" 5) ↔ (5 == m)%Q)
       ∧ (highlighted ComparePage.teachers
            [sample_school "a" 5; sample_school "b" (9 # 2); sample_school "c" 5]
            (sample_school "c" 5) ↔ (5 == m)%Q ∨ (9 # 2 <= 5)%Q).
Proof.
  apply (C5_highlight ComparePage.teachers
           [sample_school "a" 5; sample_school "b" (9 # 2); sample_school "c" 5]
           [5%Q; 9 # 2; 5%Q] (sample_school "c" 5) 5).
  - discriminate.
  - reflexivity.
  - right. right. left. reflexivity.
  - reflexivity.
Defined.

(** ** The result mappers *)

Section Mappers.
Import JS.

(** [v || 0] replaces [undefined], [null], NaN and zero by 0 and keeps
    every other number. *)
Lemma or_zero_cases (v : nullable number) :
  or_zero undefined = Fin 0
  ∧ or_zero null = Fin 0
  ∧ or_zero (val NaN) = Fin 0
  ∧ (∀ n, v = val n → truthy_number n = true → or_zero v = n)
  ∧ (∀ q, v = val (Fin q) → (q == 0)%Q → or_zero v = Fin 0).
Proof.
  repeat split.
  - intros n -> Hn. unfold or_zero. cbn. rewrite Hn. reflexivity.
  - intros q -> Hq. unfold or_zero. cbn.
    apply Qeq_bool_iff in Hq. rewrite Hq. reflexivity.
Qed.

(** The Search view defaults both numeric columns and copies the rest. *)
Lemma search_mapper (school : Store.school_record) :
  let mapped := SearchPage.toSchool school in
  SearchPage.overallRating mapped = or_zero (Store.overall_rating school)
  ∧ SearchPage.totalReviews mapped = or_zero (Store.total_reviews school)
  ∧ SearchPage.id mapped = Store.id school
  ∧ SearchPage.name mapped = Store.name school
  ∧ SearchPage.address mapped = Store.address school
  ∧ SearchPage.city mapped = Store.city school
  ∧ SearchPage.state mapped = Store.state school
  ∧ SearchPage.schoolType mapped = Store.school_type school
  ∧ SearchPage.gradeLevels mapped = Store.grade_levels school
  ∧ SearchPage.imageUrl mapped = Store.image_url school.
Proof. repeat split. Qed.

(** A review recommends the school exactly when the stored number is
    positive. *)
Lemma review_mapper_recommends (review : Store.review_record) (q : Q) :
  Store.would_recommend review = val (Fin q) →
  (SchoolDetailsPage.wouldRecommend (SchoolDetailsPage.toReview review) = true
   ↔ (0 < q)%Q).
Proof.
  intros Hq. cbn. rewrite Hq. apply lt_Fin.
Qed.

End Mappers.

(** C3: on a record whose rating columns are [null], the Search and
    details views map every rating to 0, but the add-school search of the
    Compare view and the featured schools of the Home view copy the [null]:
    the rating is not 0 at render time, and the Compare view's
    [overallRating.toFixed(1)] has no receiver. *)
Theorem C3_null_rating_kept :
  let record := sample_record "s1" "Lincoln High" JS.null in
  SearchPage.overallRating (SearchPage.toSchool record) = JS.Fin 0
  ∧ SchoolDetailsPage.overallRating (SchoolDetailsPage.toSchool record) = JS.Fin 0
  ∧ SchoolDetailsPage.academicsRating (SchoolDetailsPage.toSchool record) = JS.Fin 0
  ∧ ComparePage.overallRating (ComparePage.toSchool record) = JS.null
  ∧ ComparePage.academicsRating (ComparePage.toSchool record) = JS.null
  ∧ ComparePage.toFixed_receiver
      (ComparePage.overallRating (ComparePage.toSchool record)) = None
  ∧ HomePage.overallRating (HomePage.toSchool record) = JS.null.
Proof. repeat split. Qed.

(** ** Failed requests *)




(** With two requests in flight the list a failure leaves is not the one
    from when its request was sent: the request for "Linc" is sent over an
    empty list, the request for "Lin" then finds a school, and the rejection
    of the request for "Linc" leaves that school visible. *)
Example rejected_after_overlap :
  let sent :=
    CompareSession.run
      [CompareSession.timeout; CompareSession.change (JS.js "Lin");
       CompareSession.timeout; CompareSession.change (JS.js "Linc");
       CompareSession.timeout] CompareSession.mounted in
  let failed :=
    CompareSession.run
      [CompareSession.settle 0 (Store.fulfilled [lincoln_high]);
       CompareSession.settle 0 (Store.rejected (JS.js "Network error"))] sent in
  ComparePage.searchResults (CompareSession.view sent) = []
  ∧ ComparePage.visible_results (CompareSession.view failed)
    = [ComparePage.toSchool lincoln_high].
Proof. split; vm_compute; reflexivity. Qed.

(** ** The comparison set *)

Section Ids.
Import JS ComparePage.

Lemma some_id_In (x : jsstring) (l : list School) :
  some_id x l = true ↔ In x (List.map id l).
Proof.
  unfold some_id. rewrite existsb_exists, in_map_iff.
  split; intros (s & H1 & H2).
  - exists s. split; [apply bool_decide_eq_true in H2; exact H2 | exact H1].
  - exists s. split; [exact H2 | apply bool_decide_eq_true; exact H1].
Qed.

Lemma some_id_false (x : jsstring) (l : list School) :
  some_id x l = false ↔ ¬ In x (List.map id l).
Proof.
  rewrite <- some_id_In. destruct (some_id x l); split; congruence.
Qed.

Lemma some_id_app (x : jsstring) (l l' : list School) :
  some_id x (l ++ l') = some_id x l || some_id x l'.
Proof. apply existsb_app. Qed.

Lemma without_id_In (x : jsstring) (l : list School) (s : School) :
  In s (without_id x l) ↔ In s l ∧ id s ≠ x.
Proof.
  unfold without_id. rewrite filter_In, negb_true_iff, bool_decide_eq_false.
  reflexivity.
Qed.

Lemma without_id_ids (x y : jsstring) (l : list School) :
  In y (List.map id (without_id x l)) → In y (List.map id l).
Proof.
  rewrite !in_map_iff. intros (s & Hs & Hin).
  apply without_id_In in Hin. exists s. tauto.
Qed.

Lemma without_id_length (x : jsstring) (l : list School) :
  (length (without_id x l) <= length l)%nat.
Proof.
  unfold without_id. induction l as [| s l IH]; cbn; [lia |].
  destruct (negb (bool_decide (id s = x))); cbn; lia.
Qed.

Lemma without_id_NoDup (x : jsstring) (l : list School) :
  List.NoDup (List.map id l) → List.NoDup (List.map id (without_id x l)).
Proof.
  induction l as [| s l IH]; intros Hnd; [constructor |].
  inversion Hnd as [| ? ? Hnotin Hrest]; subst.
  change (without_id x (s :: l))
    with (if negb (bool_decide (id s = x)) then s :: without_id x l
          else without_id x l).
  destruct (negb (bool_decide (id s = x))); [| exact (IH Hrest)].
  cbn [List.map]. constructor; [| exact (IH Hrest)].
  intros Hin. apply Hnotin. exact (without_id_ids _ _ _ Hin).
Qed.

Lemma append_NoDup (s : School) (l : list School) :
  List.NoDup (List.map id l) → some_id (id s) l = false →
  List.NoDup (List.map id (l ++ [s])).
Proof.
  intros Hnd Hnew. apply some_id_false in Hnew.
  induction l as [| t l IH]; cbn in *.
  - constructor; [intros [] | constructor].
  - inversion Hnd as [| ? ? Hnotin Hrest]; subst. constructor.
    + rewrite List.map_app, in_app_iff. cbn. intros [Hin | [Heq | []]].
      * exact (Hnotin Hin).
      * apply Hnew. left. symmetry. exact Heq.
    + apply IH; [exact Hrest |]. intros Hin. apply Hnew. right. exact Hin.
Qed.

Lemma covers_refl (l : list School) : covers l l.
Proof. intros x Hx. exact Hx. Qed.

Lemma covers_without (x : jsstring) (seen l : list School) :
  covers seen l → covers seen (without_id x l).
Proof.
  intros Hcov y Hy. apply Hcov. apply some_id_In. apply some_id_In in Hy.
  exact (without_id_ids _ _ _ Hy).
Qed.

Lemma none_selected_without (x : jsstring) (results l : list School) :
  CompareSession.none_selected results l →
  CompareSession.none_selected results (without_id x l).
Proof.
  intros Hnone s Hs. specialize (Hnone s Hs).
  apply some_id_false. apply some_id_false in Hnone.
  intros Hin. apply Hnone. exact (without_id_ids _ _ _ Hin).
Qed.

(** [addSchool] either changes nothing or appends the school. *)
Lemma addSchool_cases (school : School) (st : State) :
  (addSchool school st = st
   ∧ ((4 <= length (selectedSchools st))%nat
      ∨ some_id (id school) (selectedSchools st) = true))
  ∨ (addSchool school st
     = {| selectedSchools := selectedSchools st ++ [school];
          searchQuery := [];
          searchResults := without_id (id school) (searchResults st);
          loading := loading st; showSearch := false |}
     ∧ (length (selectedSchools st) < 4)%nat
     ∧ some_id (id school) (selectedSchools st) = false).
Proof.
  unfold addSchool.
  destruct (length (selectedSchools st) <? 4)%nat eqn:Hlen;
    [apply Nat.ltb_lt in Hlen | apply Nat.ltb_ge in Hlen].
  - destruct (some_id (id school) (selectedSchools st)) eqn:Hdup; cbn.
    + left. split; [reflexivity | right; reflexivity].
    + right. repeat split. exact Hlen.
  - left. split; [reflexivity | left; exact Hlen].
Qed.

Lemma addSchool_set_ok (school : School) (st : State) :
  set_ok st → set_ok (addSchool school st).
Proof.
  intros [Hlen Hnd].
  destruct (addSchool_cases school st) as [[-> _] | (-> & Hlt & Hnew)].
  - split; assumption.
  - split; cbn.
    + rewrite length_app. cbn. lia.
    + apply append_NoDup; assumption.
Qed.

Lemma removeSchool_set_ok (schoolId : jsstring) (st : State) :
  set_ok st → set_ok (removeSchool schoolId st).
Proof.
  intros [Hlen Hnd]. split; cbn.
  - pose proof (without_id_length schoolId (selectedSchools st)). lia.
  - apply without_id_NoDup. exact Hnd.
Qed.

End Ids.

Section Session.
Import JS ComparePage CompareSession.

Lemma rerender_view (next : State) (p : Page) : view (rerender next p) = next.
Proof. reflexivity. Qed.

Lemma searchSchools_request_selected (c : Closure) (st : State) :
  selectedSchools (fst (searchSchools_request c st)) = selectedSchools st.
Proof.
  unfold searchSchools_request.
  destruct (negb (truthy_string (trim (seen_query c)))); reflexivity.
Qed.

Lemma searchSchools_settle_selected (c : Closure)
    (outcome : Store.settled Store.school_record) (st : State) :
  selectedSchools (fst (searchSchools_settle c outcome st)) = selectedSchools st.
Proof. destruct outcome; reflexivity. Qed.

(** Every event keeps the comparison set within its bounds. *)
Lemma step_set_ok (e : event) (p : Page) : set_ok (view p) → set_ok (view (step e p)).
Proof.
  intros Hok. destruct e as [value | | | i | i | | i outcome]; cbn [step].
  - destruct (length (selectedSchools (view p)) <? 4)%nat; exact Hok.
  - destruct (length (selectedSchools (view p)) <? 4)%nat; exact Hok.
  - destruct (showSearch (view p)); exact Hok.
  - destruct (visible_results (view p) !! i) as [school |]; [| exact Hok].
    rewrite rerender_view. apply addSchool_set_ok. exact Hok.
  - destruct (selectedSchools (view p) !! i) as [school |]; [| exact Hok].
    rewrite rerender_view. apply removeSchool_set_ok. exact Hok.
  - destruct (timer p) as [c |]; [| exact Hok].
    pose proof (searchSchools_request_selected c (view p)) as Hsel.
    destruct (searchSchools_request c (view p)) as [next sent].
    cbn in *. unfold set_ok. rewrite Hsel. exact Hok.
  - destruct (inflight p !! i) as [c |]; [| exact Hok].
    pose proof (searchSchools_settle_selected c outcome (view p)) as Hsel.
    destruct (searchSchools_settle c outcome (view p)) as [next errors].
    cbn in *. unfold set_ok. rewrite Hsel. exact Hok.
Qed.

Lemma run_set_ok (es : list event) (p : Page) :
  set_ok (view p) → set_ok (view (run es p)).
Proof.
  revert p. induction es as [| e es IH]; intros p Hok; [exact Hok |].
  apply (IH (step e p)). apply step_set_ok. exact Hok.
Qed.

(** A handler that keeps the selection and the results keeps the page
    fresh, whether or not the timer is armed again. *)
Lemma rerender_fresh (next : State) (p : Page) :
  selectedSchools next = selectedSchools (view p) →
  searchResults next = searchResults (view p) →
  results_fresh p → results_fresh (rerender next p).
Proof.
  intros Hsel Hres (Hnone & Hflight & Htimer).
  unfold results_fresh. cbn. rewrite Hsel, Hres.
  split; [exact Hnone |]. split; [exact Hflight |].
  intros c. destruct (bool_decide (searchQuery next = searchQuery (view p))).
  - apply Htimer.
  - intros [= <-]. cbn. rewrite Hsel. apply covers_refl.
Qed.

(** A row of the visible results only exists under a non-empty query. *)
Lemma visible_results_query (st : State) (i : nat) (school : School) :
  visible_results st !! i = Some school →
  searchQuery st ≠ [] ∧ In school (searchResults st).
Proof.
  unfold visible_results. intros Hrow.
  destruct (searchQuery st) as [| ch rest].
  - rewrite andb_false_r in Hrow. cbn in Hrow. discriminate.
  - split; [discriminate |].
    destruct ((length (selectedSchools st) <? 4)%nat && showSearch st
              && truthy_string (ch :: rest) && negb (loading st));
      [| discriminate].
    apply list_elem_of_In. exact (list_elem_of_lookup_2 _ _ _ Hrow).
Qed.

Lemma delete_In (c : Closure) (i : nat) (l : list Closure) :
  In c (delete i l) → In c l.
Proof.
  revert i. induction l as [| d l IH]; intros [| i]; cbn; try tauto.
  intros [-> | Hin]; [left; reflexivity | right; exact (IH i Hin)].
Qed.

(** As long as no school is added while a request is in flight, an event
    keeps the page fresh. *)
Lemma step_fresh (e : event) (p : Page) :
  adds_when_idle e p = true → results_fresh p → results_fresh (step e p).
Proof.
  intros Hidle Hfresh.
  destruct e as [value | | | i | i | | i outcome]; cbn [step].
  - destruct (length (selectedSchools (view p)) <? 4)%nat; [| exact Hfresh].
    apply rerender_fresh; [reflexivity | reflexivity | exact Hfresh].
  - destruct (length (selectedSchools (view p)) <? 4)%nat; [| exact Hfresh].
    apply rerender_fresh; [reflexivity | reflexivity | exact Hfresh].
  - destruct (showSearch (view p)); [| exact Hfresh].
    apply rerender_fresh; [reflexivity | reflexivity | exact Hfresh].
  - destruct (visible_results (view p) !! i) as [school |] eqn:Hrow;
      [| exact Hfresh].
    apply visible_results_query in Hrow as [Hquery _].
    destruct (addSchool_cases school (view p)) as [[-> _] | (-> & _ & Hnew)].
    + apply rerender_fresh; [reflexivity | reflexivity | exact Hfresh].
    + destruct Hfresh as (Hnone & _ & _).
      assert (Hflight : inflight p = []).
      { unfold adds_when_idle in Hidle. destruct (inflight p); [reflexivity | discriminate]. }
      unfold results_fresh. cbn. rewrite Hflight.
      split; [| split].
      * intros s Hs. apply without_id_In in Hs as [Hs Hne].
        rewrite some_id_app, (Hnone s Hs). cbn.
        rewrite bool_decide_eq_false_2; [reflexivity |].
        intros Heq. apply Hne. symmetry. exact Heq.
      * intros c [].
      * intros c. rewrite bool_decide_eq_false_2 by congruence.
        intros [= <-]. apply covers_refl.
  - destruct (selectedSchools (view p) !! i) as [school |]; [| exact Hfresh].
    destruct Hfresh as (Hnone & Hflight & Htimer).
    unfold results_fresh. cbn. split; [| split].
    + apply none_selected_without. exact Hnone.
    + intros c Hc. apply covers_without. exact (Hflight c Hc).
    + intros c. rewrite bool_decide_eq_true_2 by reflexivity.
      intros Hc. apply covers_without. exact (Htimer c Hc).
  - destruct (timer p) as [c |] eqn:Htimer_p; [| exact Hfresh].
    destruct Hfresh as (Hnone & Hflight & Htimer).
    unfold searchSchools_request.
    destruct (negb (truthy_string (trim (seen_query c))));
      unfold results_fresh; cbn; (split; [| split]).
    + intros s [].
    + exact Hflight.
    + discriminate.
    + exact Hnone.
    + intros d Hd. apply in_app_iff in Hd as [Hd | [<- | []]].
      * exact (Hflight d Hd).
      * exact (Htimer c Htimer_p).
    + discriminate.
  - destruct (inflight p !! i) as [c |] eqn:Hc; [| exact Hfresh].
    destruct Hfresh as (Hnone & Hflight & Htimer).
    assert (Hcov : covers (seen_selected c) (selectedSchools (view p))).
    { apply Hflight. apply list_elem_of_In. exact (list_elem_of_lookup_2 _ _ _ Hc). }
    destruct outcome as [results | error]; unfold results_fresh; cbn;
      (split; [| split]).
    + intros s Hs. apply filter_In in Hs as [_ Hs]. apply negb_true_iff in Hs.
      destruct (some_id (id s) (selectedSchools (view p))) eqn:Hsel; [| reflexivity].
      apply Hcov in Hsel. congruence.
    + intros d Hd. apply Hflight. exact (delete_In _ _ _ Hd).
    + exact Htimer.
    + exact Hnone.
    + intros d Hd. apply Hflight. exact (delete_In _ _ _ Hd).
    + exact Htimer.
Qed.

Lemma mounted_fresh : results_fresh mounted.
Proof.
  unfold results_fresh. cbn. split; [intros s [] | split].
  - intros c [].
  - intros c [= <-]. apply covers_refl.
Qed.

Lemma run_fresh (es : list event) (p : Page) :
  serial es p = true → results_fresh p → results_fresh (run es p).
Proof.
  revert p. induction es as [| e es IH]; intros p Hserial Hfresh; [exact Hfresh |].
  cbn in Hserial. apply andb_true_iff in Hserial as [Hidle Hserial].
  apply (IH (step e p) Hserial). apply step_fresh; assumption.
Qed.

(** What is visible is part of the result list. *)
Lemma visible_results_In (st : State) (school : School) :
  In school (visible_results st) → In school (searchResults st).
Proof.
  unfold visible_results.
  destruct ((length (selectedSchools st) <? 4)%nat && showSearch st
            && truthy_string (searchQuery st) && negb (loading st));
    [tauto | intros []].
Qed.

End Session.

(** C2: the comparison set never holds more than four schools nor two
    schools with one id, whatever happens on the page, and [addSchool] and
    [removeSchool] keep it so; [addSchool] changes nothing when the set
    already has four members or holds the school's id, and otherwise puts
    the school after the others; after four schools were added, adding a
    fifth leaves the four in the order they were added. *)
Theorem C2_comparison_set
    (school : ComparePage.School) (schoolId : JS.jsstring)
    (st : ComparePage.State) (es : list CompareSession.event) :
  set_ok (CompareSession.view (CompareSession.run es CompareSession.mounted))
  ∧ (set_ok st →
     set_ok (ComparePage.addSchool school st)
     ∧ set_ok (ComparePage.removeSchool schoolId st))
  ∧ ((4 <= length (ComparePage.selectedSchools st))%nat
     ∨ ComparePage.some_id (ComparePage.id school) (ComparePage.selectedSchools st)
       = true →
     ComparePage.addSchool school st = st)
  ∧ ((length (ComparePage.selectedSchools st) < 4)%nat →
     ComparePage.some_id (ComparePage.id school) (ComparePage.selectedSchools st)
     = false →
     ComparePage.selectedSchools (ComparePage.addSchool school st)
     = ComparePage.selectedSchools st ++ [school])
  ∧ (let s1 := sample_school "s1" 4 in
     let s2 := sample_school "s2" (9 # 2) in
     let s3 := sample_school "s3" 3 in
     let s4 := sample_school "s4" (7 # 2) in
     let s5 := sample_school "s5" 5 in
     let four :=
       ComparePage.addSchool s4
         (ComparePage.addSchool s3
            (ComparePage.addSchool s2
               (ComparePage.addSchool s1 ComparePage.initial))) in
     ComparePage.selectedSchools four = [s1; s2; s3; s4]
     ∧ ComparePage.addSchool s5 four = four).
Proof.
  split.
  { apply run_set_ok. split; cbn; [lia | constructor]. }
  split.
  { intros Hok. split; [apply addSchool_set_ok | apply removeSchool_set_ok]; exact Hok. }
  split.
  { intros Hguard.
    destruct (addSchool_cases school st) as [[Heq _] | (_ & Hlt & Hnew)];
      [exact Heq |].
    destruct Hguard as [Hfull | Hdup]; [lia | congruence]. }
  split.
  { intros Hlt Hnew.
    destruct (addSchool_cases school st) as [[_ [Hfull | Hdup]] | (-> & _ & _)];
      [lia | congruence | reflexivity]. }
  split; reflexivity.
Qed.

Lemma C2_comparison_set_witness :
  set_ok ComparePage.initial
  ∧ set_ok (ComparePage.addSchool (sample_school "s1" 4) ComparePage.initial)
  ∧ ComparePage.selectedSchools
      (ComparePage.addSchool (sample_school "s1" 4) ComparePage.initial)
    = [sample_school "s1" 4].
Proof.
  assert (Hok : set_ok ComparePage.initial) by (split; cbn; [lia | constructor]).
  destruct (C2_comparison_set (sample_school "s1" 4) (JS.js "s1")
              ComparePage.initial [])
    as (_ & Hkeep & _ & Happend & _).
  split; [exact Hok |]. split.
  - apply Hkeep. exact Hok.
  - apply Happend; [cbn; lia | reflexivity].
Defined.

(** ** The results of the add-school search *)

(** C10, as stated, fails: when the request for "Lin" is still in flight
    while the request for "Linc" settles and its school is added, the late
    response is filtered against the empty selection its function saw, and
    the next time the box opens the added school is among the visible
    results. *)
Lemma C10_counterexample :
  let p := CompareSession.run overlapping_requests CompareSession.mounted in
  ComparePage.selectedSchools (CompareSession.view p)
  = [ComparePage.toSchool lincoln_high]
  ∧ ComparePage.visible_results (CompareSession.view p)
    = [ComparePage.toSchool lincoln_high]
  ∧ ¬ CompareSession.none_selected
        (ComparePage.visible_results (CompareSession.view p))
        (ComparePage.selectedSchools (CompareSession.view p)).
Proof.
  cbv zeta.
  assert (Hsel : ComparePage.selectedSchools
                   (CompareSession.view
                      (CompareSession.run overlapping_requests CompareSession.mounted))
                 = [ComparePage.toSchool lincoln_high]) by (vm_compute; reflexivity).
  assert (Hvis : ComparePage.visible_results
                   (CompareSession.view
                      (CompareSession.run overlapping_requests CompareSession.mounted))
                 = [ComparePage.toSchool lincoln_high]) by (vm_compute; reflexivity).
  split; [exact Hsel |]. split; [exact Hvis |].
  rewrite Hsel, Hvis. intros Hnone.
  specialize (Hnone (ComparePage.toSchool lincoln_high) (or_introl eq_refl)).
  vm_compute in Hnone. discriminate.
Qed.

(** C10, amended: a response is filtered against the selection that the
    function which sent the request saw, and [addSchool] removes the added
    school from the results; so on every run of the page in which no school
    is added while a request is in flight, neither the result list nor its
    visible part ever holds a school whose id is in the comparison set. *)
Theorem C10_results_exclude_selected
    (es : list CompareSession.event) (c : ComparePage.Closure)
    (results : list Store.school_record) (school : ComparePage.School)
    (st : ComparePage.State) :
  (CompareSession.serial es CompareSession.mounted = true →
   let p := CompareSession.run es CompareSession.mounted in
   CompareSession.none_selected
     (ComparePage.searchResults (CompareSession.view p))
     (ComparePage.selectedSchools (CompareSession.view p))
   ∧ CompareSession.none_selected
       (ComparePage.visible_results (CompareSession.view p))
       (ComparePage.selectedSchools (CompareSession.view p)))
  ∧ CompareSession.none_selected
      (ComparePage.searchResults
         (fst (ComparePage.searchSchools_settle c (Store.fulfilled results) st)))
      (ComparePage.seen_selected c)
  ∧ (ComparePage.addSchool school st ≠ st →
     CompareSession.none_selected
       (ComparePage.searchResults (ComparePage.addSchool school st)) [school]).
Proof.
  split; [| split].
  - intros Hserial p.
    destruct (run_fresh es CompareSession.mounted Hserial mounted_fresh)
      as (Hnone & _ & _).
    split; [exact Hnone |].
    intros s Hs. apply Hnone. apply visible_results_In. exact Hs.
  - intros s Hs. cbn in Hs. apply filter_In in Hs as [_ Hs].
    apply negb_true_iff in Hs. exact Hs.
  - intros Hchanged.
    destruct (addSchool_cases school st) as [[Heq _] | (-> & _ & _)];
      [congruence |].
    intros s Hs. cbn in Hs. apply without_id_In in Hs as [_ Hne].
    cbn. rewrite bool_decide_eq_false_2; [reflexivity |].
    intros Heq. apply Hne. symmetry. exact Heq.
Qed.

Lemma C10_results_exclude_selected_witness :
  CompareSession.serial one_request_at_a_time CompareSession.mounted = true
  ∧ ComparePage.selectedSchools
      (CompareSession.view
         (CompareSession.run one_request_at_a_time CompareSession.mounted))
    = [ComparePage.toSchool lincoln_high]
  ∧ CompareSession.none_selected
      (ComparePage.visible_results
         (CompareSession.view
            (CompareSession.run one_request_at_a_time CompareSession.mounted)))
      (ComparePage.selectedSchools
         (CompareSession.view
            (CompareSession.run one_request_at_a_time CompareSession.mounted))).
Proof.
  split; [vm_compute; reflexivity |]. split; [vm_compute; reflexivity |].
  destruct (C10_results_exclude_selected one_request_at_a_time
              (ComparePage.closure_of ComparePage.initial) []
              (ComparePage.toSchool lincoln_high) ComparePage.initial)
    as (Hserial & _ & _).
  apply Hserial. vm_compute. reflexivity.
Defined.

(** * Further properties *)

(** ** Trimming *)

Section Trim.
Import JS.

Lemma trimStart_app_last (s : jsstring) (c : N) :
  trimStart (s ++ [c])
  = match trimStart s with
    | [] => if is_white_space c then [] else [c]
    | _ :: _ => trimStart s ++ [c]
    end.
Proof.
  induction s as [| d s IH]; cbn; [reflexivity |].
  destruct (is_white_space d); [exact IH | reflexivity].
Qed.

Lemma trimStart_idempotent (s : jsstring) : trimStart (trimStart s) = trimStart s.
Proof.
  induction s as [| c s IH]; cbn; [reflexivity |].
  destruct (is_white_space c) eqn:Hc; [exact IH |].
  cbn. rewrite Hc. reflexivity.
Qed.

(** [trimEnd], read from the front. *)
Lemma trimEnd_cons (c : N) (s : jsstring) :
  trimEnd (c :: s)
  = match trimEnd s with
    | [] => if is_white_space c then [] else [c]
    | _ :: _ => c :: trimEnd s
    end.
Proof.
  unfold trimEnd. cbn [rev]. rewrite trimStart_app_last.
  destruct (trimStart (rev s)) as [| d t] eqn:Ht.
  - cbn. destruct (is_white_space c); reflexivity.
  - rewrite rev_app_distr. cbn [rev app].
    destruct (rev t); reflexivity.
Qed.

Lemma trimEnd_idempotent (s : jsstring) : trimEnd (trimEnd s) = trimEnd s.
Proof.
  unfold trimEnd. rewrite rev_involutive, trimStart_idempotent. reflexivity.
Qed.

(** Trimming the end of a string that starts with a visible character
    leaves its start visible. *)
Lemma trimStart_trimEnd (s : jsstring) :
  trimStart s = s → trimStart (trimEnd s) = trimEnd s.
Proof.
  destruct s as [| c s]; [reflexivity |].
  cbn [trimStart]. destruct (is_white_space c) eqn:Hc.
  - intros Hs. exfalso.
    assert (Hlen : (length (trimStart s) <= length s)%nat).
    { clear. induction s as [| d s IH]; cbn; [lia |].
      destruct (is_white_space d); cbn; lia. }
    rewrite Hs in Hlen. cbn in Hlen. lia.
  - intros _. rewrite trimEnd_cons. rewrite Hc.
    destruct (trimEnd s); cbn; rewrite Hc; reflexivity.
Qed.

Lemma trim_idempotent (s : jsstring) : trim (trim s) = trim s.
Proof.
  unfold trim.
  rewrite (trimStart_trimEnd (trimStart s) (trimStart_idempotent s)).
  apply trimEnd_idempotent.
Qed.

Lemma truthy_string_nonempty (s : jsstring) : truthy_string s = true ↔ s ≠ [].
Proof. destruct s; cbn; split; congruence. Qed.

End Trim.

(** ** Navigation *)

Section Navigation.
Import JS.

Lemma navigateTo_id_nonempty (c : Nav.call) (st : App.State) :
  (∀ s, App.selectedSchoolId st = Some s → s ≠ []) →
  ∀ s, App.selectedSchoolId (App.navigateTo c st) = Some s → s ≠ [].
Proof.
  intros Hst s. cbn. destruct (Nav.schoolId c) as [[| ch rest] |]; cbn.
  - apply Hst.
  - intros [= <-]. discriminate.
  - apply Hst.
Qed.

Lemma navigations_id_nonempty (calls : list Nav.call) (st : App.State) :
  (∀ s, App.selectedSchoolId st = Some s → s ≠ []) →
  ∀ s, App.selectedSchoolId (App.navigations calls st) = Some s → s ≠ [].
Proof.
  revert st. induction calls as [| c calls IH]; intros st Hst; [exact Hst |].
  apply (IH (App.navigateTo c st)). apply navigateTo_id_nonempty. exact Hst.
Qed.

Lemma navigateTo_id_kept (c : Nav.call) (st : App.State) :
  App.selectedSchoolId st ≠ None → App.selectedSchoolId (App.navigateTo c st) ≠ None.
Proof.
  intros Hst. cbn. destruct (Nav.schoolId c) as [[| ch rest] |]; cbn;
    [exact Hst | discriminate | exact Hst].
Qed.

Lemma navigations_id_kept (calls : list Nav.call) (st : App.State) :
  App.selectedSchoolId st ≠ None →
  App.selectedSchoolId (App.navigations calls st) ≠ None.
Proof.
  revert st. induction calls as [| c calls IH]; intros st Hst; [exact Hst |].
  apply (IH (App.navigateTo c st)). apply navigateTo_id_kept. exact Hst.
Qed.

End Navigation.

(** X1: after any sequence of navigations from the initial state the
    selected school id is absent or a non-empty string, and the details page
    is rendered exactly when the current page is [school] and an id is
    selected; on [school] without an id the Home page is rendered.  A call
    without a school id, or with the empty string as id, leaves the selected
    id as it is, and once an id is selected no later navigation clears it. *)
Theorem navigation_school_id
    (calls more : list Nav.call) (c : Nav.call) (st : App.State)
    (schoolId : JS.jsstring) :
  let reached := App.navigations calls App.initial in
  (∀ s, App.selectedSchoolId reached = Some s → s ≠ [])
  ∧ (App.renderPage reached = App.SchoolDetailsPage schoolId
     ↔ App.currentPage reached = Nav.school
       ∧ App.selectedSchoolId reached = Some schoolId)
  ∧ (App.currentPage reached = Nav.school →
     App.selectedSchoolId reached = None →
     App.renderPage reached = App.HomePage)
  ∧ (Nav.schoolId c = None ∨ Nav.schoolId c = Some [] →
     App.selectedSchoolId (App.navigateTo c st) = App.selectedSchoolId st)
  ∧ (App.selectedSchoolId st ≠ None →
     App.selectedSchoolId (App.navigations more st) ≠ None).
Proof.
  intros reached.
  assert (Hinv : ∀ s, App.selectedSchoolId reached = Some s → s ≠ []).
  { apply navigations_id_nonempty. cbn. discriminate. }
  split; [exact Hinv |]. split; [| split; [| split]].
  - unfold App.renderPage.
    destruct (App.currentPage reached);
      try (split; [discriminate | intros [? _]; discriminate]).
    destruct (App.selectedSchoolId reached) as [s |] eqn:Hs.
    + specialize (Hinv s eq_refl). destruct s as [| ch rest]; [congruence |].
      cbn. split; [intros [= <-]; split; reflexivity | intros [_ [= <-]]; reflexivity].
    + split; [discriminate | intros [_ ?]; discriminate].
  - intros Hpage Hnone. unfold App.renderPage. rewrite Hpage, Hnone. reflexivity.
  - intros [Hid | Hid]; cbn; rewrite Hid; reflexivity.
  - apply navigations_id_kept.
Qed.

Lemma navigation_school_id_witness :
  let opened :=
    App.navigateTo {| Nav.page := Nav.school; Nav.schoolId := Some (JS.js "s1");
                      Nav.query := None |} App.initial in
  App.selectedSchoolId opened ≠ None
  ∧ App.renderPage
      (App.navigations
         [{| Nav.page := Nav.search; Nav.schoolId := None; Nav.query := None |};
          {| Nav.page := Nav.school; Nav.schoolId := Some []; Nav.query := None |}]
         opened)
    = App.SchoolDetailsPage (JS.js "s1")
  ∧ App.selectedSchoolId
      (App.navigations
         [{| Nav.page := Nav.search; Nav.schoolId := None; Nav.query := None |};
          {| Nav.page := Nav.school; Nav.schoolId := Some []; Nav.query := None |}]
         opened)
    ≠ None.
Proof.
  cbv zeta. split; [discriminate |]. split; [reflexivity |].
  apply (navigation_school_id []
           [{| Nav.page := Nav.search; Nav.schoolId := None; Nav.query := None |};
            {| Nav.page := Nav.school; Nav.schoolId := Some []; Nav.query := None |}]
           {| Nav.page := Nav.home; Nav.schoolId := None; Nav.query := None |}
           (App.navigateTo
              {| Nav.page := Nav.school; Nav.schoolId := Some (JS.js "s1");
                 Nav.query := None |} App.initial)
           (JS.js "s1")).
  discriminate.
Defined.

(** X2: a text submitted in the header or on the Home page that is blank
    changes nothing; any other text empties the header's input and navigates
    to the Search page with the trimmed text, keeping the selected school
    id, and the first request of a Search page opened with that text filters
    on exactly the trimmed text, with the default order and cap. *)
Theorem search_handoff
    (hst : Header.State) (home : HomePage.State) (ast : App.State) :
  (JS.trim (Header.searchQuery hst) = [] → Header.handleSearch hst = (hst, None))
  ∧ (JS.trim (HomePage.searchQuery home) = [] → HomePage.handleSearch home = None)
  ∧ (JS.trim (HomePage.searchQuery home) ≠ [] →
     ∃ c, HomePage.handleSearch home = Some c
          ∧ App.navigateTo c ast
            = App.onSearch (JS.trim (HomePage.searchQuery home)) ast)
  ∧ (JS.trim (Header.searchQuery hst) ≠ [] →
     let text := JS.trim (Header.searchQuery hst) in
     let opened := SearchPage.initial text in
     snd (Header.handleSearch hst) = Some text
     ∧ Header.searchQuery (fst (Header.handleSearch hst)) = []
     ∧ App.renderPage (App.onSearch text ast) = App.SearchPage text
     ∧ App.selectedSchoolId (App.onSearch text ast) = App.selectedSchoolId ast
     ∧ snd (SearchPage.searchSchools_request opened)
       = {| Store.where_ := Some {[ "OR" := text_search text ]};
            Store.orderBy := {[ "overall_rating" := Store.desc ]};
            Store.limit := 50 |}).
Proof.
  split; [| split; [| split]].
  - intros Hblank. unfold Header.handleSearch. rewrite Hblank. reflexivity.
  - intros Hblank. unfold HomePage.handleSearch. rewrite Hblank. reflexivity.
  - intros Htext. apply truthy_string_nonempty in Htext.
    unfold HomePage.handleSearch. rewrite Htext. eexists. split; reflexivity.
  - intros Htext. cbv zeta.
    pose proof (trim_idempotent (Header.searchQuery hst)) as Hidem.
    apply truthy_string_nonempty in Htext.
    unfold Header.handleSearch. rewrite Htext. cbn [fst snd].
    do 4 (split; [reflexivity |]).
    generalize dependent (JS.trim (Header.searchQuery hst)).
    intros text Htruthy Hidem.
    unfold SearchPage.searchSchools_request, SearchPage.listOptions.
    cbn [snd SearchPage.searchQuery SearchPage.filters SearchPage.initial].
    unfold SearchPage.whereClause. rewrite Hidem, Htruthy.
    cbn [SearchPage.noFilters SearchPage.schoolType_ SearchPage.gradeLevel
         SearchPage.minRating SearchPage.sortBy length Nat.ltb Nat.leb
         JS.truthy_string].
    change (JS.gt (JS.Fin 0) (JS.Fin 0)) with false. cbv iota.
    rewrite insert_empty, map_size_singleton. reflexivity.
Qed.

Lemma search_handoff_witness :
  let hst := {| Header.searchQuery := JS.js "  Lincoln ";
                Header.isMobileMenuOpen := false;
                Header.isUserMenuOpen := false |} in
  JS.trim (Header.searchQuery hst) ≠ []
  ∧ snd (Header.handleSearch hst) = Some (JS.js "Lincoln")
  ∧ App.renderPage (App.onSearch (JS.js "Lincoln") App.initial)
    = App.SearchPage (JS.js "Lincoln").
Proof.
  cbv zeta.
  destruct (search_handoff
              {| Header.searchQuery := JS.js "  Lincoln ";
                 Header.isMobileMenuOpen := false;
                 Header.isUserMenuOpen := false |}
              HomePage.initial App.initial) as (_ & _ & _ & Hsubmit).
  assert (Htext : JS.trim (JS.js "  Lincoln ") ≠ []) by discriminate.
  destruct (Hsubmit Htext) as (Hsent & _ & Hpage & _).
  split; [exact Htext |]. split; [exact Hsent | exact Hpage].
Defined.

(** ** The filters of the Search view *)

Section SearchFilters.
Import JS SearchPage.

Lemma includes_In (type : jsstring) (selected : list jsstring) :
  includes type selected = true ↔ In type selected.
Proof.
  unfold includes. rewrite existsb_exists. split.
  - intros (t & Hin & Ht). apply bool_decide_eq_true in Ht. subst t. exact Hin.
  - intros Hin. exists type. split; [exact Hin | apply bool_decide_eq_true; reflexivity].
Qed.

Lemma includes_false (type : jsstring) (selected : list jsstring) :
  includes type selected = false ↔ ¬ In type selected.
Proof.
  rewrite <- includes_In. destruct (includes type selected); split; congruence.
Qed.

(** The types left after unchecking [type]. *)
Lemma unchecked_In (type other : jsstring) (selected : list jsstring) :
  In other (List.filter (fun t => negb (bool_decide (t = type))) selected)
  ↔ In other selected ∧ other ≠ type.
Proof.
  rewrite filter_In, negb_true_iff, bool_decide_eq_false. reflexivity.
Qed.

(** Filtering out a type that is not in the list changes nothing. *)
Lemma unchecked_absent (type : jsstring) (selected : list jsstring) :
  ¬ In type selected →
  List.filter (fun t => negb (bool_decide (t = type))) selected = selected.
Proof.
  induction selected as [| t selected IH]; intros Hnot; [reflexivity |].
  cbn. rewrite bool_decide_eq_false_2.
  - cbn. f_equal. apply IH. intros Hin. apply Hnot. right. exact Hin.
  - intros ->. apply Hnot. left. reflexivity.
Qed.

Lemma whereClause_size (searchQuery : jsstring) (filters : Filters) :
  size (whereClause searchQuery filters)
  = ((if truthy_string (trim searchQuery) then 1 else 0)
     + (if (0 <? length (schoolType_ filters)) then 1 else 0)
     + (if truthy_string (gradeLevel filters) then 1 else 0)
     + (if gt (minRating filters) (Fin 0) then 1 else 0))%nat.
Proof.
  unfold whereClause.
  repeat match goal with |- context [if ?b then _ else _] => destruct b end;
    repeat (rewrite map_size_insert_None by (simplify_map_eq; reflexivity));
    rewrite map_size_empty; reflexivity.
Qed.

End SearchFilters.

(** X3: checking a school type puts it in the filter list and unchecking
    removes it, so the box shows the last choice; the boxes of the other
    types, the grade level, the minimum rating, the sort order and the text
    are untouched.  A list without repetition stays so when a type that is
    not in it is checked or any type is unchecked, and checking then
    unchecking a type that was not selected gives back the list. *)
Theorem school_type_checkbox
    (type other : JS.jsstring) (checked : bool) (st : SearchPage.State) :
  let types st := SearchPage.schoolType_ (SearchPage.filters st) in
  let after := SearchPage.handleSchoolTypeChange type checked st in
  SearchPage.includes type (types after) = checked
  ∧ (other ≠ type →
     SearchPage.includes other (types after) = SearchPage.includes other (types st))
  ∧ (SearchPage.gradeLevel (SearchPage.filters after)
     = SearchPage.gradeLevel (SearchPage.filters st)
     ∧ SearchPage.minRating (SearchPage.filters after)
       = SearchPage.minRating (SearchPage.filters st)
     ∧ SearchPage.sortBy (SearchPage.filters after)
       = SearchPage.sortBy (SearchPage.filters st)
     ∧ SearchPage.searchQuery after = SearchPage.searchQuery st)
  ∧ (List.NoDup (types st) →
     SearchPage.includes type (types st) = negb checked →
     List.NoDup (types after))
  ∧ (SearchPage.includes type (types st) = false →
     types (SearchPage.handleSchoolTypeChange type false
              (SearchPage.handleSchoolTypeChange type true st))
     = types st).
Proof.
  intros types after. subst types after. unfold SearchPage.handleSchoolTypeChange.
  cbn [SearchPage.filters SearchPage.schoolType_ SearchPage.gradeLevel
       SearchPage.minRating SearchPage.sortBy SearchPage.searchQuery].
  split; [| split; [| split; [| split]]].
  - destruct checked.
    + apply includes_In. apply in_app_iff. right. left. reflexivity.
    + apply includes_false. rewrite unchecked_In. tauto.
  - intros Hother.
    destruct (SearchPage.includes other
                (SearchPage.schoolType_ (SearchPage.filters st))) eqn:Hbefore.
    + apply includes_In in Hbefore. apply includes_In. destruct checked.
      * apply in_app_iff. left. exact Hbefore.
      * apply unchecked_In. split; assumption.
    + apply includes_false in Hbefore. apply includes_false. destruct checked.
      * rewrite in_app_iff. cbn. intros [Hin | [Heq | []]]; [tauto | congruence].
      * rewrite unchecked_In. tauto.
  - repeat split.
  - intros Hnd Hbox. destruct checked; cbn in Hbox.
    + apply includes_false in Hbox.
      apply List.NoDup_app; [exact Hnd | constructor; [intros [] | constructor] |].
      intros t Hin [<- | []]. exact (Hbox Hin).
    + apply List.NoDup_filter. exact Hnd.
  - intros Hbox. apply includes_false in Hbox.
    rewrite List.filter_app. cbn. rewrite bool_decide_eq_true_2 by reflexivity.
    cbn. rewrite app_nil_r. apply unchecked_absent. exact Hbox.
Qed.

Lemma school_type_checkbox_witness :
  let st := SearchPage.initial [] in
  SearchPage.includes (JS.js "charter")
    (SearchPage.schoolType_ (SearchPage.filters st)) = false
  ∧ SearchPage.schoolType_
      (SearchPage.filters
         (SearchPage.handleSchoolTypeChange (JS.js "charter") false
            (SearchPage.handleSchoolTypeChange (JS.js "charter") true st)))
    = SearchPage.schoolType_ (SearchPage.filters st).
Proof.
  cbv zeta. split; [reflexivity |].
  destruct (school_type_checkbox (JS.js "charter") (JS.js "public") true
              (SearchPage.initial [])) as (_ & _ & _ & _ & Hround).
  apply Hround. reflexivity.
Defined.

(** X4: the badge of the Filters button shows zero exactly when the
    request for a blank text carries no filter; the [where] object never has
    more keys than the badge count plus one for the text; checking one more
    school type raises the count by one; clearing the filters brings the
    count to zero and keeps the text, so the request then carries the text
    filter alone, or none for a blank text. *)
Theorem filter_badge
    (searchQuery type : JS.jsstring) (filters : SearchPage.Filters)
    (st : SearchPage.State) :
  (SearchPage.activeFiltersCount filters = 0%nat
   ↔ Store.where_ (SearchPage.listOptions [] filters) = None)
  ∧ (size (SearchPage.whereClause searchQuery filters)
     <= SearchPage.activeFiltersCount filters + 1)%nat
  ∧ SearchPage.activeFiltersCount
      (SearchPage.filters (SearchPage.handleSchoolTypeChange type true st))
    = S (SearchPage.activeFiltersCount (SearchPage.filters st))
  ∧ SearchPage.activeFiltersCount (SearchPage.filters (SearchPage.clearFilters st))
    = 0%nat
  ∧ snd (SearchPage.searchSchools_request (SearchPage.clearFilters st))
    = {| Store.where_ :=
           if JS.truthy_string (JS.trim (SearchPage.searchQuery st))
           then Some {[ "OR" := text_search (SearchPage.searchQuery st) ]}
           else None;
         Store.orderBy := {[ "overall_rating" := Store.desc ]};
         Store.limit := 50 |}.
Proof.
  split; [| split; [| split; [| split]]].
  - unfold SearchPage.listOptions. cbn [Store.where_].
    rewrite (whereClause_size [] filters). unfold SearchPage.activeFiltersCount.
    cbn [JS.trim JS.trimStart JS.trimEnd rev JS.truthy_string].
    destruct (SearchPage.schoolType_ filters) as [| t ts];
      destruct (JS.truthy_string (SearchPage.gradeLevel filters));
      destruct (JS.gt (SearchPage.minRating filters) (JS.Fin 0));
      cbn; split; intros H; try reflexivity; try discriminate; lia.
  - rewrite whereClause_size. unfold SearchPage.activeFiltersCount.
    destruct (SearchPage.schoolType_ filters) as [| t ts];
      destruct (JS.truthy_string (JS.trim searchQuery));
      destruct (JS.truthy_string (SearchPage.gradeLevel filters));
      destruct (JS.gt (SearchPage.minRating filters) (JS.Fin 0));
      cbn; lia.
  - unfold SearchPage.activeFiltersCount. cbn. rewrite length_app. cbn. lia.
  - reflexivity.
  - unfold SearchPage.searchSchools_request, SearchPage.listOptions.
    cbn [snd SearchPage.clearFilters SearchPage.searchQuery SearchPage.filters].
    rewrite whereClause_size. unfold SearchPage.whereClause.
    cbn [SearchPage.noFilters SearchPage.schoolType_ SearchPage.gradeLevel
         SearchPage.minRating SearchPage.sortBy length Nat.ltb Nat.leb
         JS.truthy_string].
    change (JS.gt (JS.Fin 0) (JS.Fin 0)) with false. cbv iota.
    destruct (JS.truthy_string (JS.trim (SearchPage.searchQuery st)));
      cbn; [rewrite insert_empty |]; reflexivity.
Qed.

(** ** Mapped ratings *)

Section MappedRatings.
Import JS.

Lemma or_zero_not_NaN (v : nullable number) : or_zero v ≠ NaN.
Proof.
  destruct v as [| | [| | q |]]; cbn; try discriminate.
  unfold or_zero. cbn. destruct (Qeq_bool q 0); discriminate.
Qed.

Lemma or_zero_idempotent (v : nullable number) : or_zero (val (or_zero v)) = or_zero v.
Proof.
  destruct v as [| | [| | q |]]; try reflexivity.
  unfold or_zero. cbn. destruct (Qeq_bool q 0) eqn:Hq; cbn.
  - reflexivity.
  - rewrite Hq. reflexivity.
Qed.

(** The stars of a defaulted rating are the stars of the rating itself. *)
Lemma stars_or_zero (v : nullable number) : stars (or_zero v) = stars (ToNumber v).
Proof.
  destruct v as [| | n]; try reflexivity.
  unfold or_zero. cbn [truthy ToNumber]. apply stars_guard.
Qed.

End MappedRatings.

(** X5: a rating mapped by the Search or the details view is never NaN,
    and the [|| 0] guards these views apply again when they render change
    nothing; for every record, whatever its rating column holds, the four
    views draw the same stars, those that default the rating and those that
    copy it. *)
Theorem mapped_rating_stars (record : Store.school_record) :
  let rating := SearchPage.overallRating (SearchPage.toSchool record) in
  rating ≠ JS.NaN
  ∧ JS.or_zero (JS.val rating) = rating
  ∧ SchoolDetailsPage.overallRating (SchoolDetailsPage.toSchool record) = rating
  ∧ SearchPage.renderStars rating
    = HomePage.renderStars (HomePage.overallRating (HomePage.toSchool record))
  ∧ SearchPage.renderStars rating
    = ComparePage.renderStars
        (ComparePage.overallRating (ComparePage.toSchool record))
  ∧ SearchPage.renderStars rating = SchoolDetailsPage.renderStars rating.
Proof.
  intros rating.
  assert (Hrating : rating = JS.or_zero (Store.overall_rating record))
    by reflexivity.
  rewrite Hrating. clear rating Hrating.
  split; [apply or_zero_not_NaN |]. split; [apply or_zero_idempotent |].
  split; [reflexivity |].
  unfold SearchPage.renderStars, SchoolDetailsPage.renderStars,
    HomePage.renderStars, ComparePage.renderStars.
  cbv zeta. rewrite stars_guard, stars_or_zero.
  split; [reflexivity | split; reflexivity].
Qed.

(** X6: a review is shown as recommending the school exactly when its
    stored [would_recommend] is a number greater than 0; a review whose
    value is absent, [null], NaN, zero or negative is shown as not
    recommending. *)
Theorem review_recommendation (review : Store.review_record) (q : Q) :
  let shown :=
    SchoolDetailsPage.wouldRecommend (SchoolDetailsPage.toReview review) in
  (shown = true
   ↔ ∃ n, Store.would_recommend review = JS.val n ∧ JS.lt (JS.Fin 0) n = true)
  ∧ (Store.would_recommend review = JS.val (JS.Fin q) →
     (shown = true ↔ (0 < q)%Q))
  ∧ (Store.would_recommend review = JS.undefined
     ∨ Store.would_recommend review = JS.null
     ∨ Store.would_recommend review = JS.val JS.NaN →
     shown = false).
Proof.
  cbn. split; [| split].
  - destruct (Store.would_recommend review) as [| | n]; cbn.
    + split; [discriminate | intros (n & Hn & _); discriminate].
    + split; [discriminate | intros (n & Hn & _); discriminate].
    + split; [intros H; exists n; split; [reflexivity | exact H] |].
      intros (m & [= <-] & Hm). exact Hm.
  - intros Hq. rewrite Hq. apply lt_Fin.
  - intros [H | [H | H]]; rewrite H; reflexivity.
Qed.

Lemma review_recommendation_witness :
  let review :=
    {| Store.review_id := JS.js "r1";
       Store.review_overall_rating := JS.val (JS.Fin 4);
       Store.review_academics_rating := JS.null;
       Store.review_facilities_rating := JS.null;
       Store.review_teachers_rating := JS.null;
       Store.review_safety_rating := JS.null;
       Store.review_extracurriculars_rating := JS.null;
       Store.title := JS.js "Great"; Store.content := JS.js "Good teachers";
       Store.pros := JS.undefined; Store.cons := JS.undefined;
       Store.would_recommend := JS.val (JS.Fin 1);
       Store.graduation_year := JS.undefined;
       Store.relationship := JS.js "parent";
       Store.created_at := JS.js "2024-01-01"; Store.user_id := JS.js "u1" |} in
  Store.would_recommend review = JS.val (JS.Fin 1)
  ∧ (SchoolDetailsPage.wouldRecommend (SchoolDetailsPage.toReview review) = true
     ↔ (0 < 1)%Q).
Proof.
  cbv zeta. split; [reflexivity |].
  apply (review_recommendation
           {| Store.review_id := JS.js "r1";
              Store.review_overall_rating := JS.val (JS.Fin 4);
              Store.review_academics_rating := JS.null;
              Store.review_facilities_rating := JS.null;
              Store.review_teachers_rating := JS.null;
              Store.review_safety_rating := JS.null;
              Store.review_extracurriculars_rating := JS.null;
              Store.title := JS.js "Great"; Store.content := JS.js "Good teachers";
              Store.pros := JS.undefined; Store.cons := JS.undefined;
              Store.would_recommend := JS.val (JS.Fin 1);
              Store.graduation_year := JS.undefined;
              Store.relationship := JS.js "parent";
              Store.created_at := JS.js "2024-01-01"; Store.user_id := JS.js "u1" |}
           1%Q).
  reflexivity.
Defined.

(** X7: on the details page the two fetches settle in either order with
    the same state; until the school fetch settles the placeholder is shown,
    whatever the reviews fetch did; once it settled, a page that held no
    school shows "School Not Found" when the fetch was rejected or returned
    no record, and otherwise shows the first record returned, ignoring the
    others. *)
Theorem details_page
    (st : SchoolDetailsPage.State)
    (fetched : Store.settled Store.school_record)
    (reviewed : Store.settled Store.review_record)
    (first : Store.school_record) (others : list Store.school_record)
    (error : JS.jsstring) :
  fst (SchoolDetailsPage.loadReviews_settle reviewed
         (fst (SchoolDetailsPage.loadSchoolDetails_settle fetched st)))
  = fst (SchoolDetailsPage.loadSchoolDetails_settle fetched
           (fst (SchoolDetailsPage.loadReviews_settle reviewed st)))
  ∧ (SchoolDetailsPage.loading st = true →
     SchoolDetailsPage.render
       (fst (SchoolDetailsPage.loadReviews_settle reviewed st))
     = SchoolDetailsPage.Skeleton)
  ∧ (SchoolDetailsPage.school st = None →
     SchoolDetailsPage.render
       (fst (SchoolDetailsPage.loadSchoolDetails_settle (Store.rejected error) st))
     = SchoolDetailsPage.SchoolNotFound
     ∧ SchoolDetailsPage.render
         (fst (SchoolDetailsPage.loadSchoolDetails_settle (Store.fulfilled []) st))
       = SchoolDetailsPage.SchoolNotFound)
  ∧ SchoolDetailsPage.school
      (fst (SchoolDetailsPage.loadSchoolDetails_settle
              (Store.fulfilled (first :: others)) st))
    = Some (SchoolDetailsPage.toSchool first)
  ∧ (∃ stars area,
       SchoolDetailsPage.render
         (fst (SchoolDetailsPage.loadSchoolDetails_settle
                 (Store.fulfilled (first :: others)) st))
       = SchoolDetailsPage.Details (SchoolDetailsPage.toSchool first) stars area).
Proof.
  split; [| split; [| split; [| split]]].
  - destruct fetched, reviewed; reflexivity.
  - intros Hloading. unfold SchoolDetailsPage.render.
    destruct reviewed; cbn; rewrite Hloading; reflexivity.
  - intros Hnone. unfold SchoolDetailsPage.render. cbn. rewrite Hnone.
    split; reflexivity.
  - reflexivity.
  - unfold SchoolDetailsPage.render. cbn. eexists. eexists. reflexivity.
Qed.

Lemma details_page_witness :
  SchoolDetailsPage.school SchoolDetailsPage.initial = None
  ∧ SchoolDetailsPage.render
      (fst (SchoolDetailsPage.loadSchoolDetails_settle
              (Store.rejected (JS.js "Network error")) SchoolDetailsPage.initial))
    = SchoolDetailsPage.SchoolNotFound.
Proof.
  split; [reflexivity |].
  destruct (details_page SchoolDetailsPage.initial (Store.fulfilled [])
              (Store.fulfilled []) (sample_record "s1" "Lincoln High" JS.null) []
              (JS.js "Network error")) as (_ & _ & Hnone & _).
  apply Hnone. reflexivity.
Defined.

(** ** Removing from the comparison set *)

Section Removal.
Import JS ComparePage.

Lemma without_id_absent (x : jsstring) (l : list School) :
  some_id x l = false → without_id x l = l.
Proof.
  intros Habsent. apply some_id_false in Habsent. unfold without_id.
  induction l as [| s l IH]; [reflexivity |].
  cbn. rewrite bool_decide_eq_false_2.
  - cbn. f_equal. apply IH. intros Hin. apply Habsent. right. exact Hin.
  - intros Hid. apply Habsent. left. exact Hid.
Qed.

Lemma without_id_gone (x : jsstring) (l : list School) :
  some_id x (without_id x l) = false.
Proof.
  apply some_id_false. rewrite in_map_iff. intros (s & Hid & Hin).
  apply without_id_In in Hin. tauto.
Qed.

(** Removing the id of a member of a set without repeated ids takes out
    exactly one school. *)
Lemma without_id_member (x : jsstring) (l : list School) :
  List.NoDup (List.map id l) → some_id x l = true →
  S (length (without_id x l)) = length l.
Proof.
  induction l as [| s l IH]; intros Hnd Hin; [discriminate |].
  inversion Hnd as [| ? ? Hnotin Hrest]; subst.
  change (without_id x (s :: l))
    with (if negb (bool_decide (id s = x)) then s :: without_id x l
          else without_id x l).
  destruct (bool_decide (id s = x)) eqn:Hs; cbn [negb].
  - apply bool_decide_eq_true in Hs. subst x.
    rewrite without_id_absent; [reflexivity |].
    apply some_id_false. exact Hnotin.
  - cbn [length]. f_equal. apply IH; [exact Hrest |].
    cbn in Hin. rewrite Hs in Hin. exact Hin.
Qed.

End Removal.

(** X8: after [removeSchool] no selected school has the removed id, and
    removing an id that is not selected changes nothing; removing a school
    right after it was added gives back the selection from before; in a
    comparison set within its bounds, removing a member takes out exactly
    one school, so that a school that is not yet selected can then be added
    even if the set was full. *)
Theorem remove_school
    (school added : ComparePage.School) (schoolId : JS.jsstring)
    (st : ComparePage.State) :
  ComparePage.some_id schoolId
    (ComparePage.selectedSchools (ComparePage.removeSchool schoolId st)) = false
  ∧ (ComparePage.some_id schoolId (ComparePage.selectedSchools st) = false →
     ComparePage.removeSchool schoolId st = st)
  ∧ (ComparePage.addSchool school st ≠ st →
     ComparePage.selectedSchools
       (ComparePage.removeSchool (ComparePage.id school)
          (ComparePage.addSchool school st))
     = ComparePage.selectedSchools st)
  ∧ (set_ok st →
     ComparePage.some_id schoolId (ComparePage.selectedSchools st) = true →
     S (length (ComparePage.selectedSchools (ComparePage.removeSchool schoolId st)))
     = length (ComparePage.selectedSchools st)
     ∧ (ComparePage.some_id (ComparePage.id added)
          (ComparePage.selectedSchools (ComparePage.removeSchool schoolId st))
        = false →
        ComparePage.selectedSchools
          (ComparePage.addSchool added (ComparePage.removeSchool schoolId st))
        = ComparePage.selectedSchools (ComparePage.removeSchool schoolId st)
          ++ [added])).
Proof.
  split; [| split; [| split]].
  - apply without_id_gone.
  - intros Habsent. unfold ComparePage.removeSchool.
    rewrite (without_id_absent _ _ Habsent). destruct st; reflexivity.
  - intros Hchanged.
    destruct (addSchool_cases school st) as [[Heq _] | (-> & _ & Hnew)];
      [congruence |].
    cbn. unfold ComparePage.without_id. rewrite List.filter_app. cbn.
    rewrite bool_decide_eq_true_2 by reflexivity. cbn. rewrite app_nil_r.
    apply without_id_absent. exact Hnew.
  - intros [Hlen Hnd] Hmember.
    pose proof (without_id_member schoolId _ Hnd Hmember) as Hone.
    split; [exact Hone |].
    intros Hnew.
    destruct (addSchool_cases added (ComparePage.removeSchool schoolId st))
      as [[_ [Hfull | Hdup]] | (-> & _ & _)].
    + cbn in Hfull. lia.
    + congruence.
    + reflexivity.
Qed.

Lemma remove_school_witness :
  let s1 := sample_school "s1" 4 in
  let s2 := sample_school "s2" 3 in
  let st := ComparePage.addSchool s1 ComparePage.initial in
  ComparePage.addSchool s2 st ≠ st
  ∧ ComparePage.selectedSchools
      (ComparePage.removeSchool (ComparePage.id s2) (ComparePage.addSchool s2 st))
    = ComparePage.selectedSchools st.
Proof.
  cbv zeta.
  assert (Hchanged :
            ComparePage.addSchool (sample_school "s2" 3)
              (ComparePage.addSchool (sample_school "s1" 4) ComparePage.initial)
            ≠ ComparePage.addSchool (sample_school "s1" 4) ComparePage.initial)
    by discriminate.
  split; [exact Hchanged |].
  destruct (remove_school (sample_school "s2" 3) (sample_school "s3" 5)
              (JS.js "s1")
              (ComparePage.addSchool (sample_school "s1" 4) ComparePage.initial))
    as (_ & _ & Hround & _).
  apply Hround. exact Hchanged.
Defined.

(** ** Colours and the highest rating with absent values *)

Section Colours.
Import JS ComparePage.

(** The colour of a finite rating, band by band. *)
Lemma getRatingColor_cases (q : Q) :
  ((9 # 2 <= q)%Q ∧ getRatingColor (val (Fin q)) = "text-green-600")
  ∨ ((4 <= q)%Q ∧ (q < 9 # 2)%Q
     ∧ getRatingColor (val (Fin q)) = "text-green-500")
  ∨ ((7 # 2 <= q)%Q ∧ (q < 4)%Q
     ∧ getRatingColor (val (Fin q)) = "text-yellow-500")
  ∨ ((3 <= q)%Q ∧ (q < 7 # 2)%Q
     ∧ getRatingColor (val (Fin q)) = "text-orange-500")
  ∨ ((q < 3)%Q ∧ getRatingColor (val (Fin q)) = "text-red-500").
Proof.
  unfold getRatingColor. cbn [ToNumber].
  destruct (ge (Fin q) (Fin (9 # 2))) eqn:E45.
  { apply ge_Fin in E45. left. split; [exact E45 | reflexivity]. }
  assert (H45 : (q < 9 # 2)%Q).
  { apply Qnot_le_lt. intros H. apply ge_Fin in H. congruence. }
  destruct (ge (Fin q) (Fin 4)) eqn:E40.
  { apply ge_Fin in E40. right. left. repeat split; assumption. }
  assert (H40 : (q < 4)%Q).
  { apply Qnot_le_lt. intros H. apply ge_Fin in H. congruence. }
  destruct (ge (Fin q) (Fin (7 # 2))) eqn:E35.
  { apply ge_Fin in E35. right. right. left. repeat split; assumption. }
  assert (H35 : (q < 7 # 2)%Q).
  { apply Qnot_le_lt. intros H. apply ge_Fin in H. congruence. }
  destruct (ge (Fin q) (Fin 3)) eqn:E30.
  { apply ge_Fin in E30. right. right. right. left. repeat split; assumption. }
  assert (H30 : (q < 3)%Q).
  { apply Qnot_le_lt. intros H. apply ge_Fin in H. congruence. }
  right. right. right. right. split; [exact H30 | reflexivity].
Qed.



End Colours.

(** X9: [getRatingColor] gives green-600 from 4.5 on, green-500 from 4.0,
    yellow-500 from 3.5, orange-500 from 3.0 and red-500 below; a higher
    rating never gets a worse colour; an absent rating, [null] or
    [undefined], gets red-500. *)
Theorem rating_colour (p q : Q) :
  (ComparePage.getRatingColor (JS.val (JS.Fin q)) = "text-green-600"
   ↔ (9 # 2 <= q)%Q)
  ∧ (ComparePage.getRatingColor (JS.val (JS.Fin q)) = "text-green-500"
     ↔ (4 <= q)%Q ∧ (q < 9 # 2)%Q)
  ∧ (ComparePage.getRatingColor (JS.val (JS.Fin q)) = "text-yellow-500"
     ↔ (7 # 2 <= q)%Q ∧ (q < 4)%Q)
  ∧ (ComparePage.getRatingColor (JS.val (JS.Fin q)) = "text-orange-500"
     ↔ (3 <= q)%Q ∧ (q < 7 # 2)%Q)
  ∧ (ComparePage.getRatingColor (JS.val (JS.Fin q)) = "text-red-500"
     ↔ (q < 3)%Q)
  ∧ ((p <= q)%Q →
     (colour_rank (ComparePage.getRatingColor (JS.val (JS.Fin p)))
      <= colour_rank (ComparePage.getRatingColor (JS.val (JS.Fin q))))%nat)
  ∧ ComparePage.getRatingColor JS.null = "text-red-500"
  ∧ ComparePage.getRatingColor JS.undefined = "text-red-500".
Proof.
  split; [| split; [| split; [| split; [| split; [| split; [| split]]]]]].
  1-5: destruct (getRatingColor_cases q)
         as [[H1 ->] | [(H1 & H2 & ->) | [(H1 & H2 & ->) | [(H1 & H2 & ->) | [H1 ->]]]]];
       (split; [intros Hclass; first [discriminate | split; assumption | assumption]
               | intros Hband; first [reflexivity | exfalso; lra]]).
  - intros Hpq.
    destruct (getRatingColor_cases p)
      as [[P1 ->] | [(P1 & P2 & ->) | [(P1 & P2 & ->) | [(P1 & P2 & ->) | [P1 ->]]]]];
      destruct (getRatingColor_cases q)
        as [[Q1 ->] | [(Q1 & Q2 & ->) | [(Q1 & Q2 & ->) | [(Q1 & Q2 & ->) | [Q1 ->]]]]];
      first [exfalso; lra | vm_compute; lia].
  - reflexivity.
  - reflexivity.
Qed.

Lemma rating_colour_witness :
  (4 <= 9 # 2)%Q
  ∧ (colour_rank (ComparePage.getRatingColor (JS.val (JS.Fin 4)))
     <= colour_rank (ComparePage.getRatingColor (JS.val (JS.Fin (9 # 2)))))%nat.
Proof.
  assert (Hle : (4 <= 9 # 2)%Q) by discriminate.
  split; [exact Hle |].
  apply (rating_colour 4 (9 # 2)). exact Hle.
Defined.

Section RatingRow.
Import JS ComparePage.



End RatingRow.



(** ** The debounced search of the Compare view *)

Section Debounce.
Import JS ComparePage CompareSession.

Lemma rerender_current (next : State) (p : Page) :
  timer_current p → timer_current (rerender next p).
Proof.
  intros [Htimer Hflight]. split; cbn; [| exact Hflight].
  intros c. destruct (bool_decide (searchQuery next = searchQuery (view p))) eqn:Hq.
  - apply bool_decide_eq_true in Hq. rewrite Hq. apply Htimer.
  - intros [= <-]. reflexivity.
Qed.

Lemma searchSchools_settle_query (c : Closure)
    (outcome : Store.settled Store.school_record) (st : State) :
  searchQuery (fst (searchSchools_settle c outcome st)) = searchQuery st.
Proof. destruct outcome; reflexivity. Qed.

Lemma step_current (e : event) (p : Page) : timer_current p → timer_current (step e p).
Proof.
  intros Hcur. destruct e as [value | | | i | i | | i outcome]; cbn [step].
  - destruct (length (selectedSchools (view p)) <? 4)%nat;
      [apply rerender_current |]; exact Hcur.
  - destruct (length (selectedSchools (view p)) <? 4)%nat;
      [apply rerender_current |]; exact Hcur.
  - destruct (showSearch (view p)); [apply rerender_current |]; exact Hcur.
  - destruct (visible_results (view p) !! i);
      [apply rerender_current |]; exact Hcur.
  - destruct (selectedSchools (view p) !! i);
      [apply rerender_current |]; exact Hcur.
  - destruct (timer p) as [c |]; [| exact Hcur].
    destruct Hcur as [_ Hflight]. unfold searchSchools_request.
    destruct (truthy_string (trim (seen_query c))) eqn:Hblank; cbn.
    + split; cbn; [discriminate |].
      intros d Hd. apply in_app_iff in Hd as [Hd | [<- | []]].
      * exact (Hflight d Hd).
      * apply truthy_string_nonempty. exact Hblank.
    + split; cbn; [discriminate | exact Hflight].
  - destruct (inflight p !! i) as [c |]; [| exact Hcur].
    destruct Hcur as [Htimer Hflight].
    pose proof (searchSchools_settle_query c outcome (view p)) as Hq.
    destruct (searchSchools_settle c outcome (view p)) as [next errors].
    cbn in Hq. split; cbn.
    + rewrite Hq. exact Htimer.
    + intros d Hd. apply Hflight. exact (delete_In _ _ _ Hd).
Qed.

Lemma run_current (es : list event) (p : Page) :
  timer_current p → timer_current (run es p).
Proof.
  revert p. induction es as [| e es IH]; intros p Hcur; [exact Hcur |].
  apply (IH (step e p)). apply step_current. exact Hcur.
Qed.

Lemma mounted_current : timer_current mounted.
Proof.
  split; cbn; [intros c [= <-]; reflexivity | intros c []].
Qed.

(** Typing alone sends nothing and touches neither the selection nor the
    results. *)
Lemma typing_keeps (values : list jsstring) (p : Page) :
  let p' := run (List.map change values) p in
  inflight p' = inflight p
  ∧ selectedSchools (view p') = selectedSchools (view p)
  ∧ searchResults (view p') = searchResults (view p).
Proof.
  revert p. induction values as [| v values IH]; intros p; [repeat split |].
  cbn [List.map run fold_left]. fold (run (List.map change values) (step (change v) p)).
  destruct (IH (step (change v) p)) as (Hflight & Hsel & Hres).
  cbv zeta. rewrite Hflight, Hsel, Hres. cbn [step].
  destruct (length (selectedSchools (view p)) <? 4)%nat; repeat split.
Qed.

(** While the search box is there, the query is the last text typed. *)
Lemma typing_last (values : list jsstring) (p : Page) :
  (length (selectedSchools (view p)) < 4)%nat → values ≠ [] →
  searchQuery (view (run (List.map change values) p)) = List.last values [].
Proof.
  revert p. induction values as [| v values IH]; intros p Hroom Hne; [congruence |].
  cbn [List.map run fold_left]. fold (run (List.map change values) (step (change v) p)).
  assert (Hstep : searchQuery (view (step (change v) p)) = v
                  ∧ selectedSchools (view (step (change v) p))
                    = selectedSchools (view p)).
  { cbn [step]. apply Nat.ltb_lt in Hroom. rewrite Hroom. split; reflexivity. }
  destruct Hstep as [Hquery Hsel].
  destruct values as [| w values]; [exact Hquery |].
  rewrite IH; [reflexivity | rewrite Hsel; exact Hroom | discriminate].
Qed.

(** A timer armed for the present state stays so while the user types. *)
Lemma typing_armed (values : list jsstring) (p : Page) :
  timer p = Some (closure_of (view p)) →
  timer (run (List.map change values) p)
  = Some (closure_of (view (run (List.map change values) p))).
Proof.
  revert p. induction values as [| v values IH]; intros p Harmed; [exact Harmed |].
  cbn [List.map run fold_left]. fold (run (List.map change values) (step (change v) p)).
  apply IH. cbn [step].
  destruct (length (selectedSchools (view p)) <? 4)%nat; [| exact Harmed].
  cbn. destruct (bool_decide (v = searchQuery (view p))) eqn:Hv; [| reflexivity].
  apply bool_decide_eq_true in Hv. rewrite Harmed. unfold closure_of. cbn.
  rewrite Hv. reflexivity.
Qed.

(** Typing that ends on another text than it started from leaves the timer
    armed for the final text. *)
Lemma typing_rearms (values : list jsstring) (p : Page) :
  searchQuery (view (run (List.map change values) p)) ≠ searchQuery (view p) →
  timer (run (List.map change values) p)
  = Some (closure_of (view (run (List.map change values) p))).
Proof.
  revert p. induction values as [| v values IH]; intros p Hchanged;
    [exfalso; apply Hchanged; reflexivity |].
  cbn [List.map run fold_left] in *.
  fold (run (List.map change values) (step (change v) p)) in *.
  destruct (decide (searchQuery (view (run (List.map change values) (step (change v) p)))
                    = searchQuery (view (step (change v) p)))) as [Hsame | Hdiff];
    [| exact (IH _ Hdiff)].
  apply typing_armed. rewrite Hsame in Hchanged. revert Hchanged. cbn [step].
  destruct (length (selectedSchools (view p)) <? 4)%nat; [| congruence].
  cbn. intros Hv. rewrite bool_decide_eq_false_2 by exact Hv. reflexivity.
Qed.

End Debounce.

(** X11: on every run of the Compare view a pending timer belongs to the
    query as it is at that moment, so what it sends when it elapses is the
    request for the current query, or nothing for a blank one; and no
    request in flight was ever sent for a blank query. *)
Theorem debounce_timer_current
    (es : list CompareSession.event) (c : ComparePage.Closure) :
  let p := CompareSession.run es CompareSession.mounted in
  let query := ComparePage.searchQuery (CompareSession.view p) in
  (CompareSession.timer p = Some c →
   ComparePage.seen_query c = query
   ∧ snd (ComparePage.searchSchools_request c (CompareSession.view p))
     = if JS.truthy_string (JS.trim query)
       then Some (ComparePage.listOptions query) else None)
  ∧ (In c (CompareSession.inflight p) → JS.trim (ComparePage.seen_query c) ≠ []).
Proof.
  intros p query.
  destruct (run_current es CompareSession.mounted mounted_current)
    as [Htimer Hflight].
  split; [| apply Hflight].
  intros Hc. specialize (Htimer c Hc). split; [exact Htimer |].
  unfold ComparePage.searchSchools_request. rewrite Htimer. fold p query.
  destruct (JS.truthy_string (JS.trim query)); reflexivity.
Qed.

Lemma debounce_timer_current_witness :
  let p := CompareSession.run
             [CompareSession.timeout; CompareSession.change (JS.js "Lin");
              CompareSession.change (JS.js "Linc")]
             CompareSession.mounted in
  CompareSession.timer p
  = Some {| ComparePage.seen_query := JS.js "Linc";
            ComparePage.seen_selected := [] |}
  ∧ snd (ComparePage.searchSchools_request
           {| ComparePage.seen_query := JS.js "Linc";
              ComparePage.seen_selected := [] |} (CompareSession.view p))
    = Some (ComparePage.listOptions (JS.js "Linc")).
Proof.
  cbv zeta.
  assert (Htimer :
            CompareSession.timer
              (CompareSession.run
                 [CompareSession.timeout; CompareSession.change (JS.js "Lin");
                  CompareSession.change (JS.js "Linc")]
                 CompareSession.mounted)
            = Some {| ComparePage.seen_query := JS.js "Linc";
                      ComparePage.seen_selected := [] |}) by reflexivity.
  split; [exact Htimer |].
  destruct (debounce_timer_current
              [CompareSession.timeout; CompareSession.change (JS.js "Lin");
               CompareSession.change (JS.js "Linc")]
              {| ComparePage.seen_query := JS.js "Linc";
                 ComparePage.seen_selected := [] |}) as [Hsend _].
  destruct (Hsend Htimer) as [_ Hsent]. exact Hsent.
Defined.

(** X12: typing in the search box, however many times before the timer
    elapses, sends no request and leaves the results as they are; while
    fewer than four schools are selected the query becomes the last text
    typed; when the timer then elapses at most one request is sent, and if
    the final text is not blank and differs from the query before the
    typing, exactly one is sent, for the final text. *)
Theorem typing_burst
    (es : list CompareSession.event) (values : list JS.jsstring) :
  let before := CompareSession.run es CompareSession.mounted in
  let typed := CompareSession.run (List.map CompareSession.change values) before in
  let elapsed := CompareSession.step CompareSession.timeout typed in
  let query := ComparePage.searchQuery (CompareSession.view typed) in
  CompareSession.inflight typed = CompareSession.inflight before
  ∧ ComparePage.searchResults (CompareSession.view typed)
    = ComparePage.searchResults (CompareSession.view before)
  ∧ ((length (ComparePage.selectedSchools (CompareSession.view before)) < 4)%nat →
     values ≠ [] → query = List.last values [])
  ∧ (CompareSession.inflight elapsed = CompareSession.inflight before
     ∨ ∃ c, CompareSession.inflight elapsed = CompareSession.inflight before ++ [c]
            ∧ ComparePage.seen_query c = query ∧ JS.trim query ≠ [])
  ∧ (query ≠ ComparePage.searchQuery (CompareSession.view before) →
     JS.trim query ≠ [] →
     CompareSession.inflight elapsed
     = CompareSession.inflight before
       ++ [ComparePage.closure_of (CompareSession.view typed)]).
Proof.
  intros before typed elapsed query.
  destruct (typing_keeps values before) as (Hflight & _ & Hres).
  fold typed in Hflight, Hres.
  split; [exact Hflight |]. split; [exact Hres |].
  split; [apply typing_last |].
  assert (Hcur : timer_current typed).
  { apply run_current. apply run_current. apply mounted_current. }
  destruct Hcur as [Htimer _].
  assert (Hstep : ∀ c, CompareSession.timer typed = Some c →
            CompareSession.inflight elapsed
            = if JS.truthy_string (JS.trim query)
              then CompareSession.inflight before ++ [c]
              else CompareSession.inflight before).
  { intros c Hc. subst elapsed. cbn [CompareSession.step]. rewrite Hc.
    unfold ComparePage.searchSchools_request.
    rewrite (Htimer c Hc). fold query.
    destruct (JS.truthy_string (JS.trim query)); cbn; rewrite Hflight; reflexivity. }
  split.
  - destruct (CompareSession.timer typed) as [c |] eqn:Hc.
    + rewrite (Hstep c eq_refl).
      destruct (JS.truthy_string (JS.trim query)) eqn:Hblank; [| left; reflexivity].
      right. exists c. split; [reflexivity |]. split; [exact (Htimer c eq_refl) |].
      apply truthy_string_nonempty. exact Hblank.
    + left. subst elapsed. cbn [CompareSession.step]. rewrite Hc. exact Hflight.
  - intros Hchanged Hblank.
    rewrite (Hstep _ (typing_rearms values before Hchanged)).
    apply truthy_string_nonempty in Hblank. rewrite Hblank. reflexivity.
Qed.

Lemma typing_burst_witness :
  let typed :=
    CompareSession.run
      (List.map CompareSession.change [JS.js "L"; JS.js "Li"; JS.js "Lin"])
      (CompareSession.run [CompareSession.timeout] CompareSession.mounted) in
  ComparePage.searchQuery (CompareSession.view typed) = JS.js "Lin"
  ∧ CompareSession.inflight (CompareSession.step CompareSession.timeout typed)
    = [{| ComparePage.seen_query := JS.js "Lin";
          ComparePage.seen_selected := [] |}].
Proof.
  cbv zeta.
  destruct (typing_burst [CompareSession.timeout]
              [JS.js "L"; JS.js "Li"; JS.js "Lin"]) as (_ & _ & Hlast & _ & Hone).
  split.
  - apply Hlast; [cbn; lia | discriminate].
  - apply Hone; discriminate.
Defined.

(** X13: when a click on a result adds the school, the search box closes
    with an empty query, so nothing is visible any more, and the timer is
    armed for the empty query: when it elapses it empties the result list
    and sends no request. *)
Theorem add_closes_search (p : CompareSession.Page) (i : nat) :
  let added := CompareSession.step (CompareSession.click_result i) p in
  let elapsed := CompareSession.step CompareSession.timeout added in
  ComparePage.selectedSchools (CompareSession.view added)
  ≠ ComparePage.selectedSchools (CompareSession.view p) →
  (∃ school,
     ComparePage.visible_results (CompareSession.view p) !! i = Some school
     ∧ ComparePage.selectedSchools (CompareSession.view added)
       = ComparePage.selectedSchools (CompareSession.view p) ++ [school])
  ∧ ComparePage.searchQuery (CompareSession.view added) = []
  ∧ ComparePage.visible_results (CompareSession.view added) = []
  ∧ ComparePage.searchResults (CompareSession.view elapsed) = []
  ∧ CompareSession.inflight elapsed = CompareSession.inflight p
  ∧ ComparePage.selectedSchools (CompareSession.view elapsed)
    = ComparePage.selectedSchools (CompareSession.view added).
Proof.
  intros added elapsed. subst elapsed added. cbn [CompareSession.step].
  destruct (ComparePage.visible_results (CompareSession.view p) !! i)
    as [school |] eqn:Hrow; [| congruence].
  destruct (visible_results_query _ _ _ Hrow) as [Hquery _].
  destruct (addSchool_cases school (CompareSession.view p))
    as [[-> _] | (-> & _ & _)]; [cbn; congruence |].
  intros _. cbn.
  rewrite bool_decide_eq_false_2 by congruence. cbn.
  split; [exists school; split; reflexivity |].
  split; [reflexivity |]. split; [| repeat split].
  unfold ComparePage.visible_results. cbn. rewrite !andb_false_r. reflexivity.
Qed.

Lemma add_closes_search_witness :
  let p :=
    CompareSession.run
      [CompareSession.timeout; CompareSession.change (JS.js "Lin");
       CompareSession.timeout;
       CompareSession.settle 0 (Store.fulfilled [lincoln_high])]
      CompareSession.mounted in
  let added := CompareSession.step (CompareSession.click_result 0) p in
  ComparePage.selectedSchools (CompareSession.view added)
  ≠ ComparePage.selectedSchools (CompareSession.view p)
  ∧ ComparePage.visible_results (CompareSession.view added) = []
  ∧ ComparePage.searchResults
      (CompareSession.view (CompareSession.step CompareSession.timeout added))
    = [].
Proof.
  cbv zeta.
  assert (Hadded :
    ComparePage.selectedSchools
      (CompareSession.view
         (CompareSession.step (CompareSession.click_result 0)
            (CompareSession.run
               [CompareSession.timeout; CompareSession.change (JS.js "Lin");
                CompareSession.timeout;
                CompareSession.settle 0 (Store.fulfilled [lincoln_high])]
               CompareSession.mounted)))
    ≠ ComparePage.selectedSchools
        (CompareSession.view
           (CompareSession.run
              [CompareSession.timeout; CompareSession.change (JS.js "Lin");
               CompareSession.timeout;
               CompareSession.settle 0 (Store.fulfilled [lincoln_high])]
              CompareSession.mounted))) by (vm_compute; discriminate).
  split; [exact Hadded |].
  destruct (add_closes_search
              (CompareSession.run
                 [CompareSession.timeout; CompareSession.change (JS.js "Lin");
                  CompareSession.timeout;
                  CompareSession.settle 0 (Store.fulfilled [lincoln_high])]
                 CompareSession.mounted) 0 Hadded)
    as (_ & _ & Hvisible & Hresults & _).
  split; [exact Hvisible | exact Hresults].
Defined.

(** ** The shape of the star pattern *)

Section StarShape.
Import JS.

(** A star, decided by the floor of the rating and by whether the rating
    has a fractional part. *)
Lemma star_by_floor (q : Q) (i : nat) :
  star (Fin q) i
  = if (Z.of_nat i <? Qfloor q)%Z then full
    else if (Z.of_nat i =? Qfloor q)%Z && Qlt_bool (inject_Z (Qfloor q)) q
         then half else empty.
Proof.
  destruct (star_finite q i) as (Hfull & Hhalf & Hempty).
  destruct (Z.ltb_spec (Z.of_nat i) (Qfloor q)) as [Hlt | Hge].
  - apply Hfull. exact Hlt.
  - destruct (Z.eqb_spec (Z.of_nat i) (Qfloor q)) as [Heq | Hne]; cbn [andb].
    + destruct (Qlt_bool (inject_Z (Qfloor q)) q) eqn:Hfrac.
      * apply Hhalf. apply Qlt_bool_iff in Hfrac.
        split; [lia | rewrite Heq; exact Hfrac].
      * apply Hempty. apply Qlt_bool_false_iff in Hfrac. rewrite Heq. exact Hfrac.
    + apply Hempty. apply Qlt_le_weak.
      apply Qlt_le_trans with (inject_Z (Qfloor q + 1)); [apply Qlt_floor |].
      rewrite <- Zle_Qle. lia.
Qed.

End StarShape.

(** X14: the five stars are always full stars, then at most one half
    star, then empty stars: the number of full stars is the floor of the
    rating, kept between 0 and 5, and there is a half star exactly when the
    rating lies strictly between 0 and 5 and is not a whole number. *)
Theorem star_shape (q : Q) :
  let nfull := Z.to_nat (Z.min 5 (Z.max 0 (Qfloor q))) in
  let nhalf :=
    if (0 <=? Qfloor q)%Z && (Qfloor q <? 5)%Z
       && JS.Qlt_bool (inject_Z (Qfloor q)) q
    then 1%nat else 0%nat in
  stars (JS.Fin q) = pattern nfull nhalf
  ∧ (nhalf = 1%nat
     ↔ (0 < q)%Q ∧ (q < 5)%Q ∧ ¬ (q == inject_Z (Qfloor q))%Q).
Proof.
  intros nfull nhalf. split.
  - subst nfull nhalf. rewrite stars_positions, !star_by_floor.
    generalize (JS.Qlt_bool (inject_Z (Qfloor q)) q). intros frac.
    generalize (Qfloor q). intros z.
    destruct (Z_lt_le_dec z 0) as [Hneg | Hpos].
    { replace (Z.max 0 z) with 0%Z by lia.
      repeat match goal with
             | |- context [(Z.of_nat ?i <? z)%Z] =>
                 rewrite (proj2 (Z.ltb_ge (Z.of_nat i) z)) by lia
             | |- context [(Z.of_nat ?i =? z)%Z] =>
                 rewrite (proj2 (Z.eqb_neq (Z.of_nat i) z)) by lia
             end.
      rewrite (proj2 (Z.leb_gt 0 z)) by lia. reflexivity. }
    destruct (Z_lt_le_dec z 5) as [Hsmall | Hbig].
    { assert (Hz : z = 0%Z ∨ z = 1%Z ∨ z = 2%Z ∨ z = 3%Z ∨ z = 4%Z) by lia.
      destruct Hz as [-> | [-> | [-> | [-> | ->]]]]; destruct frac; reflexivity. }
    replace (Z.min 5 (Z.max 0 z)) with 5%Z by lia.
    repeat match goal with
           | |- context [(Z.of_nat ?i <? z)%Z] =>
               rewrite (proj2 (Z.ltb_lt (Z.of_nat i) z)) by lia
           end.
    rewrite (proj2 (Z.ltb_ge z 5)) by lia. rewrite andb_false_r. reflexivity.
  - subst nhalf.
    pose proof (Qfloor_le q) as Hlow. pose proof (Qlt_floor q) as Hhigh.
    destruct ((0 <=? Qfloor q)%Z && (Qfloor q <? 5)%Z
              && JS.Qlt_bool (inject_Z (Qfloor q)) q) eqn:Hcond.
    + apply andb_true_iff in Hcond as [Hcond Hfrac].
      apply andb_true_iff in Hcond as [H0 H5].
      apply Z.leb_le in H0. apply Z.ltb_lt in H5. apply Qlt_bool_iff in Hfrac.
      split; [intros _ | reflexivity].
      assert (Hz0 : (inject_Z 0 <= inject_Z (Qfloor q))%Q) by (rewrite <- Zle_Qle; lia).
      assert (Hz5 : (inject_Z (Qfloor q + 1) <= inject_Z 5)%Q)
        by (rewrite <- Zle_Qle; lia).
      change (inject_Z 0) with 0%Q in Hz0. change (inject_Z 5) with 5%Q in Hz5.
      split; [lra |]. split; [lra |]. intros Heq. rewrite <- Heq in Hfrac. lra.
    + split; [discriminate |]. intros (Hq0 & Hq5 & Hwhole). exfalso.
      assert (H0 : (0 <= Qfloor q)%Z).
      { apply Qlt_le_weak in Hq0. apply Qfloor_resp_le in Hq0. exact Hq0. }
      assert (H5 : (Qfloor q < 5)%Z).
      { rewrite Zlt_Qlt. change (inject_Z 5) with 5%Q. lra. }
      assert (Hfrac : (inject_Z (Qfloor q) < q)%Q).
      { apply Qle_lteq in Hlow as [Hlt | Heq]; [exact Hlt |].
        exfalso. apply Hwhole. symmetry. exact Heq. }
      apply Z.leb_le in H0. apply Z.ltb_lt in H5. apply Qlt_bool_iff in Hfrac.
      rewrite H0, H5, Hfrac in Hcond. discriminate.
Qed.

(** ** The loading flag of the Compare view *)

Section Loading.
Import JS ComparePage CompareSession.

Lemma step_loading (e : event) (p : Page) :
  (loading (view p) = true → inflight p ≠ []) →
  loading (view (step e p)) = true → inflight (step e p) ≠ [].
Proof.
  intros Hinv. destruct e as [value | | | i | i | | i outcome]; cbn [step].
  - destruct (length (selectedSchools (view p)) <? 4)%nat; exact Hinv.
  - destruct (length (selectedSchools (view p)) <? 4)%nat; exact Hinv.
  - destruct (showSearch (view p)); exact Hinv.
  - destruct (visible_results (view p) !! i) as [school |]; [| exact Hinv].
    destruct (addSchool_cases school (view p)) as [[-> _] | (-> & _ & _)];
      exact Hinv.
  - destruct (selectedSchools (view p) !! i); exact Hinv.
  - destruct (timer p) as [c |]; [| exact Hinv].
    unfold searchSchools_request.
    destruct (negb (truthy_string (trim (seen_query c)))); cbn; [exact Hinv |].
    intros _ Hnil. apply app_eq_nil in Hnil as [_ Hnil]. discriminate.
  - destruct (inflight p !! i) as [c |]; [| exact Hinv].
    destruct outcome; cbn; discriminate.
Qed.

End Loading.

(** X15: on every run of the Compare view the "Searching..." placeholder
    is up only while some request is in flight, and while it is up no
    result row is visible. *)
Theorem loading_means_in_flight (es : list CompareSession.event) :
  let p := CompareSession.run es CompareSession.mounted in
  ComparePage.loading (CompareSession.view p) = true →
  CompareSession.inflight p ≠ []
  ∧ ComparePage.visible_results (CompareSession.view p) = [].
Proof.
  intros p Hloading. split.
  - revert Hloading. subst p.
    assert (Hgen : ∀ es q,
              (ComparePage.loading (CompareSession.view q) = true →
               CompareSession.inflight q ≠ []) →
              ComparePage.loading (CompareSession.view (CompareSession.run es q))
              = true →
              CompareSession.inflight (CompareSession.run es q) ≠ []).
    { clear. induction es as [| e es IH]; intros q Hq; [exact Hq |].
      apply (IH (CompareSession.step e q)). apply step_loading. exact Hq. }
    apply Hgen. cbn. discriminate.
  - unfold ComparePage.visible_results. rewrite Hloading.
    rewrite andb_false_r. reflexivity.
Qed.

Lemma loading_means_in_flight_witness :
  let p :=
    CompareSession.run
      [CompareSession.timeout; CompareSession.change (JS.js "Lin");
       CompareSession.timeout]
      CompareSession.mounted in
  ComparePage.loading (CompareSession.view p) = true
  ∧ CompareSession.inflight p ≠ [].
Proof.
  cbv zeta.
  assert (Hloading :
            ComparePage.loading
              (CompareSession.view
                 (CompareSession.run
                    [CompareSession.timeout; CompareSession.change (JS.js "Lin");
                     CompareSession.timeout]
                    CompareSession.mounted)) = true) by reflexivity.
  split; [exact Hloading |].
  apply (loading_means_in_flight
           [CompareSession.timeout; CompareSession.change (JS.js "Lin");
            CompareSession.timeout]).
  exact Hloading.
Defined.

(** ** The sign-in gate *)

Section Gate.

Lemma navigations_session (calls : list Nav.call) (st : App.State) :
  App.user (App.navigations calls st) = App.user st
  ∧ App.loading (App.navigations calls st) = App.loading st.
Proof.
  revert st. induction calls as [| c calls IH]; intros st; [split; reflexivity |].
  exact (IH (App.navigateTo c st)).
Qed.

End Gate.

(** X16: navigation never changes who is signed in, so whatever is
    navigated to, a page is on screen exactly when the session has loaded
    and a user is signed in; a change of the session never changes the page,
    the selected school or the query, so after signing out and in again the
    same page is shown. *)
Theorem sign_in_gate
    (calls : list Nav.call) (st : App.State)
    (signed_in : option App.User) (again : App.User) (isLoading : bool) :
  let reached := App.navigations calls st in
  ((∃ who page main, App.render reached = App.Shell who page main)
   ↔ App.loading st = false ∧ App.user st ≠ None)
  ∧ App.renderPage (App.authStateChanged signed_in isLoading st) = App.renderPage st
  ∧ App.render
      (App.authStateChanged (Some again) false
         (App.authStateChanged None false st))
    = App.Shell again (App.currentPage st) (App.renderPage st).
Proof.
  intros reached. split; [| split; reflexivity].
  destruct (navigations_session calls st) as [Huser Hloading].
  fold reached in Huser, Hloading.
  unfold App.render. rewrite Huser, Hloading.
  destruct (App.loading st); [split; [intros (? & ? & ? & ?); discriminate
                                     | intros [? _]; discriminate] |].
  destruct (App.user st) as [who |].
  - split; [intros _; split; [reflexivity | discriminate] |].
    intros _. eexists. eexists. eexists. reflexivity.
  - split; [intros (? & ? & ? & ?); discriminate | intros [_ ?]; congruence].
Qed.

(** ** What the Search view shows *)

(** X17: once a search has been sent the results area shows the
    placeholder until the request settles; after a fulfilled request it
    shows the "No schools found" panel exactly when no record came back, and
    otherwise one card per record, in the order of the records, each with
    the stars of its defaulted rating. *)
Theorem search_results_shown
    (st : SearchPage.State) (results : list Store.school_record) :
  let sent := fst (SearchPage.searchSchools_request st) in
  let shown :=
    SearchPage.render_results
      (fst (SearchPage.searchSchools_settle (Store.fulfilled results) sent)) in
  SearchPage.render_results sent = SearchPage.Searching
  ∧ (shown = SearchPage.NoSchoolsFound ↔ results = [])
  ∧ (results ≠ [] →
     shown
     = SearchPage.Cards
         (List.map (fun record =>
                      (SearchPage.toSchool record,
                       stars (JS.or_zero (Store.overall_rating record))))
                   results)).
Proof.
  cbv zeta. split; [reflexivity |].
  assert (Hcard : ∀ r,
            SearchPage.renderStars (SearchPage.overallRating (SearchPage.toSchool r))
            = stars (JS.or_zero (Store.overall_rating r))).
  { intros r. exact (stars_guard (SearchPage.overallRating (SearchPage.toSchool r))). }
  unfold SearchPage.render_results, SearchPage.searchSchools_settle,
    SearchPage.searchSchools_request.
  cbn [fst SearchPage.loading SearchPage.schools].
  destruct results as [| record results].
  - split; [split; reflexivity | congruence].
  - cbn [List.map length Nat.eqb].
    split; [split; discriminate |]. intros _.
    rewrite Hcard. do 2 f_equal.
    rewrite List.map_map. apply List.map_ext. intros r. rewrite Hcard. reflexivity.
Qed.

Lemma search_results_shown_witness :
  [lincoln_high] ≠ []
  ∧ SearchPage.render_results
      (fst (SearchPage.searchSchools_settle (Store.fulfilled [lincoln_high])
              (fst (SearchPage.searchSchools_request (SearchPage.initial [])))))
    = SearchPage.Cards
        [(SearchPage.toSchool lincoln_high, [full; full; full; full; empty])].
Proof.
  split; [discriminate |].
  destruct (search_results_shown (SearchPage.initial []) [lincoln_high])
    as (_ & _ & Hcards).
  rewrite (Hcards ltac:(discriminate)). reflexivity.
Defined.
